(** * Writetracer: the writing-coach panel and the save-status tracker

  A shallow embedding of the logic of two React components:

  - [SuggestionsPanel] (src/components/SuggestionsPanel.tsx): the
    rule table behind the suggestion cards and the progress percentage;
  - [Home] (the page component that owns [handleContentChange]): the text
    metrics and the debounced "Editing"/"Saved" indicator.

  JavaScript built-ins the components call ([String.prototype.split],
  [String.prototype.trim], [Math.round], [window.setTimeout], ...) are
  modelled in [Module JS] after ECMAScript and the HTML timer
  specification. *)

From Stdlib Require Import ZArith List Bool Lia String Ascii.
From Stdlib Require Import Uint63 Floats.
From Stdlib Require Import Permutation.
Import ListNotations.

Local Open Scope Z_scope.

(* ================================================================== *)
(** * JavaScript built-ins *)
(* ================================================================== *)

Module JS.

(** ** Strings

    A JavaScript string is a sequence of UTF-16 code units; [length]
    counts code units. *)

Definition code_unit := Z.
Definition jsstring := list code_unit.

(** A literal made of ASCII characters only. *)
Fixpoint lit (s : string) : jsstring :=
  match s with
  | EmptyString => []
  | String c s' => Z.of_nat (nat_of_ascii c) :: lit s'
  end.

Definition LF : code_unit := 10.

Definition length (s : jsstring) : Z := Z.of_nat (List.length s).

(** ECMAScript [WhiteSpace] and [LineTerminator] code points, the set
    that [trim] strips.  All of them lie in the Basic Multilingual
    Plane, so each is one code unit. *)
Definition isWhiteSpace (c : code_unit) : bool :=
     (c =? 9) || (c =? 11) || (c =? 12) || (c =? 32) || (c =? 160)
  || (c =? 65279)                                  (* U+FEFF *)
  || (c =? 5760)                                   (* U+1680 *)
  || ((8192 <=? c) && (c <=? 8202))                (* U+2000 .. U+200A *)
  || (c =? 8239) || (c =? 8287) || (c =? 12288)    (* U+202F U+205F U+3000 *)
  || (c =? 10) || (c =? 13) || (c =? 8232) || (c =? 8233).

Fixpoint trimStart (s : jsstring) : jsstring :=
  match s with
  | [] => []
  | c :: s' => if isWhiteSpace c then trimStart s' else s
  end.

Definition trimEnd (s : jsstring) : jsstring := rev (trimStart (rev s)).

(** [String.prototype.trim] *)
Definition trim (s : jsstring) : jsstring := trimEnd (trimStart s).

(** [String.prototype.split] with a one-code-unit separator: the pieces
    between successive occurrences of [sep]; a string without [sep]
    (the empty string included) gives one piece. *)
Fixpoint split (sep : code_unit) (s : jsstring) : list jsstring :=
  match s with
  | [] => [[]]
  | c :: s' =>
      if c =? sep then [] :: split sep s'
      else match split sep s' with
           | [] => [[c]]
           | piece :: pieces => (c :: piece) :: pieces
           end
  end.

(** [Array.prototype.join] with a one-code-unit separator. *)
Fixpoint join (sep : code_unit) (pieces : list jsstring) : jsstring :=
  match pieces with
  | [] => []
  | [piece] => piece
  | piece :: rest => piece ++ sep :: join sep rest
  end.

(** ** Numbers

    Integer-valued numbers in the safe range (string lengths, array
    lengths, the literals 0, 100, 1000) are modelled as [Z]; on them
    [Math.min] and [Math.max] are [Z.min] and [Z.max].  Division and
    multiplication go through binary64; [toNumber] is the binary64 value
    of such an integer and is only used on 0 .. 1000, where it is exact. *)

Definition toNumber (z : Z) : float := PrimFloat.of_uint63 (Uint63.of_Z z).

(** [Math.round]: the integer closest to [x], ties towards +infinity,
    that is, floor (x + 1/2) computed exactly.  The result is reported
    as an integer; the non-finite cases (where JavaScript returns its
    argument) are mapped to 0 and never arise below. *)
Definition Math_round (x : float) : Z :=
  match Prim2SF x with
  | S754_finite sign m e =>
      let sm := if sign then - Z.pos m else Z.pos m in
      if 0 <=? e then sm * 2 ^ e
      else (2 * sm + 2 ^ (- e)) / 2 ^ (- e + 1)
  | _ => 0
  end.

Definition isFinite (x : float) : bool :=
  match Prim2SF x with
  | S754_finite _ _ _ | S754_zero _ => true
  | _ => false
  end.

End JS.

(* ================================================================== *)
(** * SuggestionsPanel.tsx *)
(* ================================================================== *)

Module SuggestionsPanel.

Inductive Tone := structure | clarity | evidence | flow.
Inductive Priority := high | mid | low.

Record Suggestion := {
  id : string;
  title : string;
  description : string;
  tone : option Tone;
  priority : option Priority
}.

Definition clamp (n min max : Z) : Z := Z.max min (Z.min max n).

(** The number handed to [Math.round] in [getProgress]. *)
Definition pct (contentLength : Z) : float :=
  PrimFloat.mul
    (PrimFloat.div (JS.toNumber (clamp contentLength 0 1000)) (JS.toNumber 1000))
    (JS.toNumber 100).

Definition getProgress (contentLength : Z) : Z :=
  JS.Math_round (pct contentLength).

Local Open Scope string_scope.

(** The literals pushed by the four branches of [suggestions]. *)
Definition bucket1 : list Suggestion :=
  [ {| id := "1";
       title := "목차와 구조를 먼저 잡아보세요";
       description :=
         "서론–본론–결론의 뼈대를 먼저 만들면 글이 훨씬 안정적으로 전개돼요.";
       tone := Some structure;
       priority := Some high |};
    {| id := "2";
       title := "핵심 주제를 한 문장으로 정리해보세요";
       description :=
         "“이 글은 결국 무엇을 말하는가?”를 한 문장으로 못 박아보세요.";
       tone := Some clarity;
       priority := Some mid |} ].

Definition bucket2 : list Suggestion :=
  [ {| id := "1";
       title := "각 문단의 핵심을 1문장으로 요약해보세요";
       description :=
         "문단의 주장/근거/결론이 분리되면 논리 흐름이 훨씬 또렷해져요.";
       tone := Some structure;
       priority := Some high |};
    {| id := "2";
       title := "구체적인 예시나 사례를 추가해볼까요?";
       description :=
         "추상적인 설명에 1개의 사례만 붙여도 설득력이 크게 올라가요.";
       tone := Some evidence;
       priority := Some mid |} ].

Definition bucket3 : list Suggestion :=
  [ {| id := "1";
       title := "문단을 나누어 구조를 명확히 해보세요";
       description :=
         "한 문단에는 ‘한 주장’만 담는 게 읽기 쉬운 글의 기본이에요.";
       tone := Some structure;
       priority := Some high |};
    {| id := "2";
       title := "각 문단의 역할을 정의해보세요";
       description :=
         "서론(문제)–본론(근거)–결론(요약/제안)이 있는지 점검해보세요.";
       tone := Some flow;
       priority := Some mid |} ].

Definition bucket4 : list Suggestion :=
  [ {| id := "1";
       title := "문단 간 연결이 자연스러운지 점검해보세요";
       description :=
         "‘따라서/그러나/또한’ 같은 연결어가 흐름을 매끄럽게 만들어줘요.";
       tone := Some flow;
       priority := Some mid |};
    {| id := "2";
       title := "근거를 어떤 형태로 보강할까요?";
       description :=
         "사례·통계·인용 중 무엇이 이 문맥에 가장 잘 맞는지 골라보세요.";
       tone := Some evidence;
       priority := Some high |};
    {| id := "3";
       title := "반대 의견을 한 번만 선제적으로 다뤄보세요";
       description := "반박을 미리 넣으면 논증 신뢰도가 크게 올라가요.";
       tone := Some clarity;
       priority := Some mid |};
    {| id := "4";
       title := "결론을 ‘다음 행동’까지 포함해 강화해보세요";
       description :=
         "요약 + 독자에게 남길 문장 1개 + 다음 단계(제안/다짐)로 마무리해요.";
       tone := Some structure;
       priority := Some high |} ].

Definition fallback : Suggestion :=
  {| id := "default-1";
     title := "독자 관점에서 읽기 쉬운가요?";
     description :=
       "전문 용어를 풀어쓰거나, 긴 문장을 둘로 나눌 수 있는지 확인해보세요.";
     tone := Some clarity;
     priority := Some low |}.

Local Close Scope string_scope.

(** [Array.prototype.push] and [Array.prototype.slice(0, n)]. *)
Definition push {A} (s : list A) (items : list A) : list A := s ++ items.
Definition slice0 {A} (n : nat) (s : list A) : list A := firstn n s.

(** The array [s] as it stands after the [if]/[else if] chain. *)
Definition matched (contentLength paragraphCount : Z) : list Suggestion :=
  let s := [] in
  if contentLength <? 100 then push s bucket1
  else if contentLength <? 500 then push s bucket2
  else if paragraphCount <? 3 then push s bucket3
  else push s bucket4.

(** The memoised [suggestions] value (the spec's [select]). *)
Definition suggestions (contentLength paragraphCount : Z) : list Suggestion :=
  let s := matched contentLength paragraphCount in
  let s := if Z.of_nat (List.length s) <? 2 then push s [fallback] else s in
  slice0 4 s.

(** What a card shows of a suggestion's classification. *)
Definition badge (s : Suggestion) : option Tone * option Priority :=
  (tone s, priority s).

(** One row of the exhaustive check of [getProgress] over the lengths the
    clamp lets through: the percentage is finite, lies in [0, 100], is an
    integer nearest to [n / 10], and does not drop at [n + 1]. *)
Definition progressRowOk (n : Z) : bool :=
  let p := getProgress n in
  JS.isFinite (pct n) && (0 <=? p) && (p <=? 100)
  && (Z.abs (10 * p - n) <=? 5) && (p <=? getProgress (n + 1)).

Definition lengthsUpTo (n : nat) : list Z := map Z.of_nat (seq 0 (S n)).

End SuggestionsPanel.

(* ================================================================== *)
(** * The page component [Home] *)
(* ================================================================== *)

Module Home.

Inductive SaveStatus := Saved | Editing.

(** An entry of the window's list of active timers.  The component only
    ever schedules one callback, [() => setSaveStatus("Saved")], so an
    entry is its handle and the clock value from which it may run. *)
Record Timer := { handle : Z; due : Z }.

(** The state of a mounted [Home] together with the part of its
    environment it acts on (clock and timer list of the window). *)
Record State := {
  now : Z;
  saveStatus : SaveStatus;
  contentLength : Z;
  paragraphCount : Z;
  saveTimerRef : option Z;      (* saveTimerRef.current: null or a handle *)
  timers : list Timer;
  nextHandle : Z;               (* the handle the next setTimeout returns *)
  mounted : bool
}.

(** [useState("Saved")], [useState(0)], [useState(0)], [useRef(null)];
    timer handles are integers greater than zero. *)
Definition initial : State :=
  {| now := 0; saveStatus := Saved; contentLength := 0; paragraphCount := 0;
     saveTimerRef := None; timers := []; nextHandle := 1; mounted := true |}.

Definition setSaveStatus (v : SaveStatus) (st : State) : State :=
  {| now := now st; saveStatus := v; contentLength := contentLength st;
     paragraphCount := paragraphCount st; saveTimerRef := saveTimerRef st;
     timers := timers st; nextHandle := nextHandle st; mounted := mounted st |}.

Definition setContentLength (v : Z) (st : State) : State :=
  {| now := now st; saveStatus := saveStatus st; contentLength := v;
     paragraphCount := paragraphCount st; saveTimerRef := saveTimerRef st;
     timers := timers st; nextHandle := nextHandle st; mounted := mounted st |}.

Definition setParagraphCount (v : Z) (st : State) : State :=
  {| now := now st; saveStatus := saveStatus st; contentLength := contentLength st;
     paragraphCount := v; saveTimerRef := saveTimerRef st;
     timers := timers st; nextHandle := nextHandle st; mounted := mounted st |}.

Definition setSaveTimerRef (v : option Z) (st : State) : State :=
  {| now := now st; saveStatus := saveStatus st; contentLength := contentLength st;
     paragraphCount := paragraphCount st; saveTimerRef := v;
     timers := timers st; nextHandle := nextHandle st; mounted := mounted st |}.

Definition setTimers (v : list Timer) (st : State) : State :=
  {| now := now st; saveStatus := saveStatus st; contentLength := contentLength st;
     paragraphCount := paragraphCount st; saveTimerRef := saveTimerRef st;
     timers := v; nextHandle := nextHandle st; mounted := mounted st |}.

(** [window.setTimeout(callback, delay)]: a new entry, a fresh handle. *)
Definition setTimeout (delay : Z) (st : State) : Z * State :=
  let h := nextHandle st in
  (h,
   {| now := now st; saveStatus := saveStatus st; contentLength := contentLength st;
      paragraphCount := paragraphCount st; saveTimerRef := saveTimerRef st;
      timers := timers st ++ [ {| handle := h; due := now st + delay |} ];
      nextHandle := h + 1; mounted := mounted st |}).

(** [window.clearTimeout(h)]: the entry with handle [h] is removed, if
    there is one. *)
Definition clearTimeout (h : Z) (st : State) : State :=
  setTimers (filter (fun t => negb (handle t =? h)) (timers st)) st.

(** [if (saveTimerRef.current) window.clearTimeout(saveTimerRef.current)]:
    [null] and 0 are falsy. *)
Definition cancelPending (st : State) : State :=
  match saveTimerRef st with
  | Some h => if h =? 0 then st else clearTimeout h st
  | None => st
  end.

(** The lines of [content] that survive the filter of
    [handleContentChange]. *)
Definition paragraphs (content : JS.jsstring) : list JS.jsstring :=
  filter (fun line => 0 <? JS.length (JS.trim line)) (JS.split JS.LF content).

(** The debounce branch of [handleContentChange]. *)
Definition markEditing (st : State) : State :=
  let st := setSaveStatus Editing st in
  let st := cancelPending st in
  let (h, st) := setTimeout 900 st in
  setSaveTimerRef (Some h) st.

(** The two metric updates that open [handleContentChange]. *)
Definition storeMetrics (content : JS.jsstring) (st : State) : State :=
  let st := setContentLength (JS.length content) st in
  setParagraphCount (Z.of_nat (List.length (paragraphs content))) st.

Definition handleContentChange (content : JS.jsstring) (st : State) : State :=
  let st := storeMetrics content st in
  if 0 <? JS.length content then markEditing st else st.

(** The cleanup of the mount effect. *)
Definition cleanup (st : State) : State :=
  let st := cancelPending st in
  {| now := now st; saveStatus := saveStatus st; contentLength := contentLength st;
     paragraphCount := paragraphCount st; saveTimerRef := saveTimerRef st;
     timers := timers st; nextHandle := nextHandle st; mounted := false |}.

(** ** The event loop

    What can happen to a [Home]: time passes; the window runs a timer
    that is due; the editor reports new plain-text content (its listener
    is registered while the page is mounted and removed by the editor's
    own effect cleanup); the page is unmounted. *)
Inductive Event :=
| Elapse (dt : Z)
| TimerFires (h : Z)
| ContentChange (content : JS.jsstring)
| Unmount.

Definition advance (dt : Z) (st : State) : State :=
  {| now := now st + dt; saveStatus := saveStatus st; contentLength := contentLength st;
     paragraphCount := paragraphCount st; saveTimerRef := saveTimerRef st;
     timers := timers st; nextHandle := nextHandle st; mounted := mounted st |}.

Definition step (e : Event) (st : State) : option State :=
  match e with
  | Elapse dt => if 0 <=? dt then Some (advance dt st) else None
  | TimerFires h =>
      match find (fun t => handle t =? h) (timers st) with
      | Some t =>
          if due t <=? now st
          then Some (setSaveStatus Saved (clearTimeout h st))
          else None
      | None => None
      end
  | ContentChange content =>
      if mounted st then Some (handleContentChange content st) else None
  | Unmount => if mounted st then Some (cleanup st) else None
  end.

Fixpoint run (evs : list Event) (st : State) : option State :=
  match evs with
  | [] => Some st
  | e :: evs' =>
      match step e st with
      | Some st' => run evs' st'
      | None => None
      end
  end.

(** The clock value of the last call of [handleContentChange] with
    non-empty content in [evs], when the clock reads [t] at the start and
    [last] is the value before [evs]. *)
Fixpoint lastEditFrom (t : Z) (last : option Z) (evs : list Event) : option Z :=
  match evs with
  | [] => last
  | Elapse dt :: evs' => lastEditFrom (t + dt) last evs'
  | ContentChange content :: evs' =>
      lastEditFrom t (if 0 <? JS.length content then Some t else last) evs'
  | _ :: evs' => lastEditFrom t last evs'
  end.

Definition lastEdit (evs : list Event) : option Z := lastEditFrom 0 None evs.

(** No call with non-empty content among [evs]. *)
Definition quiet (evs : list Event) : bool :=
  forallb (fun e => match e with
                    | ContentChange content => negb (0 <? JS.length content)
                    | _ => true
                    end) evs.

(** The lines of [content] with at least one character that is not
    white space: the paragraph count as the data model words it. *)
Definition nonBlank (line : JS.jsstring) : bool :=
  existsb (fun c => negb (JS.isWhiteSpace c)) line.

Definition nonBlankLines (content : JS.jsstring) : Z :=
  Z.of_nat (List.length (filter nonBlank (JS.split JS.LF content))).

(** ** The scenario of three quick edits

    One character typed at clock 0, 100 and 200, and the state this
    leaves. *)
Definition threeEdits : list Event :=
  [ ContentChange (JS.lit "a"); Elapse 100;
    ContentChange (JS.lit "a"); Elapse 100;
    ContentChange (JS.lit "a") ].

Definition afterThreeEdits : State :=
  {| now := 200; saveStatus := Editing; contentLength := 1; paragraphCount := 1;
     saveTimerRef := Some 3; timers := [ {| handle := 3; due := 1100 |} ];
     nextHandle := 4; mounted := true |}.

(** ** The invariant of the tracker

    [last] is the clock value of the last call with non-empty content, if
    there was one.  The window holds no timer of the page, or exactly the
    one [saveTimerRef] points to, set at [last] and due 900 later, and
    then the status is Editing; a Saved status after a call means that the
    window has passed. *)
Definition Inv (last : option Z) (st : State) : Prop :=
  0 < nextHandle st
  /\ (timers st = []
      \/ exists tm,
           timers st = [tm]
           /\ saveTimerRef st = Some (handle tm)
           /\ 0 < handle tm
           /\ saveStatus st = Editing
           /\ mounted st = true
           /\ last = Some (due tm - 900))
  /\ match last with
     | None => saveStatus st = Saved
     | Some t => saveStatus st = Editing \/ t + 900 <= now st
     end.

End Home.

(* ================================================================== *)
(** * The class-name helper [cx] *)
(* ================================================================== *)

Module ClassNames.

(** An argument of [cx]: [string | false | undefined | null]. *)
Inductive ClassValue :=
| Cstr (s : JS.jsstring)
| Cfalse
| Cundefined
| Cnull.

(** [Boolean(v)]: the empty string is falsy like the three constants. *)
Definition Boolean (v : ClassValue) : bool :=
  match v with
  | Cstr [] => false
  | Cstr (_ :: _) => true
  | _ => false
  end.

(** The strings among the values ([filter(Boolean)] leaves only strings). *)
Fixpoint strings (classes : list ClassValue) : list JS.jsstring :=
  match classes with
  | [] => []
  | Cstr s :: rest => s :: strings rest
  | _ :: rest => strings rest
  end.

Definition SPACE : JS.code_unit := 32.

(** [classes.filter(Boolean).join(" ")] *)
Definition cx (classes : list ClassValue) : JS.jsstring :=
  JS.join SPACE (strings (filter Boolean classes)).

End ClassNames.

(* ================================================================== *)
(** * SuggestionsPanel.tsx: what a card shows *)
(* ================================================================== *)

Module SuggestionsPanelView.

Import SuggestionsPanel.

Local Open Scope string_scope.

Definition pillStyle (priority : option Priority) : string :=
  match priority with
  | Some high => "bg-blue-500/10 text-blue-700 ring-1 ring-blue-500/15"
  | Some mid => "bg-slate-500/10 text-slate-700 ring-1 ring-slate-500/15"
  | _ => "bg-slate-400/10 text-slate-600 ring-1 ring-slate-400/15"
  end.

Definition toneDot (tone : option Tone) : string :=
  match tone with
  | Some structure => "bg-indigo-500/60"
  | Some clarity => "bg-blue-500/60"
  | Some evidence => "bg-emerald-500/60"
  | Some flow => "bg-amber-500/60"
  | None => "bg-slate-400/60"
  end.

(** The text of the pill: [s.priority ?? "low"]. *)
Definition pillText (s : Suggestion) : string :=
  match priority s with
  | Some high => "high"
  | Some mid => "mid"
  | Some low => "low"
  | None => "low"
  end.

Local Close Scope string_scope.

(** [selectedId === s.id], with [selectedId : string | null]. *)
Definition selected (selectedId : option string) (s : Suggestion) : bool :=
  match selectedId with
  | Some i => String.eqb i (id s)
  | None => false
  end.

(** [onClick={() => setSelectedId(s.id)}] *)
Definition click (s : Suggestion) : option string := Some (id s).

(** The cards rendered with the highlight ring. *)
Definition highlighted (selectedId : option string) (cards : list Suggestion)
  : list Suggestion :=
  filter (selected selectedId) cards.

(** The React keys of the rendered list: [key={s.id}]. *)
Definition keys (cards : list Suggestion) : list string := map id cards.

(** One row of the check of the two ends and the step of [getProgress]. *)
Definition progressShapeOk (n : Z) : bool :=
  let p := getProgress n in
  Bool.eqb (p =? 0) (n <=? 4) && Bool.eqb (p =? 100) (995 <=? n)
  && (getProgress (n + 1) - p <=? 1).

End SuggestionsPanelView.

(* ================================================================== *)
(** * DocEditor.tsx: files dropped, pasted or picked *)
(* ================================================================== *)

Module DocEditor.

(** What the handlers read of a [File]. *)
Record File := { name : JS.jsstring; size : Z; type : JS.jsstring }.

(** The two commands the handlers run on the editor, each through
    [chain().focus(). ... .run()]. *)
Inductive Command :=
| SetImage (src : JS.jsstring)
| InsertAttachment (name : JS.jsstring) (size : Z) (type : JS.jsstring).

(** [String.prototype.startsWith] *)
Fixpoint startsWith (s prefix : JS.jsstring) : bool :=
  match prefix, s with
  | [], _ => true
  | p :: prefix', c :: s' => (c =? p) && startsWith s' prefix'
  | _ :: _, [] => false
  end.

(** The surroundings the handlers act on: the commands run on the editor
    so far, oldest first; the files handed to a [FileReader] so far
    (the [onload] of each will run [setImage]); the value of the hidden
    file input. *)
Record Env := {
  issued : list Command;
  reading : list File;
  inputValue : JS.jsstring
}.

(** The body of the [forEach] callback, the same in all three handlers. *)
Definition eachFile (file : File) (env : Env) : Env :=
  if startsWith (type file) (JS.lit "image/") then
    {| issued := issued env; reading := reading env ++ [file];
       inputValue := inputValue env |}
  else
    {| issued := issued env
                 ++ [InsertAttachment (name file) (size file) (type file)];
       reading := reading env; inputValue := inputValue env |}.

(** [files.forEach(...)] *)
Definition forEach (files : list File) (env : Env) : Env :=
  fold_left (fun env file => eachFile file env) files env.

Definition onDrop (files : list File) (env : Env) : Env := forEach files env.

Definition onPaste (files : list File) (env : Env) : Env := forEach files env.

(** [handleFileSelect]: [files] is [e.target.files] ([null] or a list),
    [editor] tells whether the editor exists, [fileInputRef] whether the
    ref holds the input element. *)
Definition handleFileSelect (files : option (list File)) (editor fileInputRef : bool)
    (env : Env) : Env :=
  match files with
  | None => env
  | Some fs =>
      if (Z.of_nat (List.length fs) =? 0) || negb editor then env
      else
        let env := forEach fs env in
        if fileInputRef then
          {| issued := issued env; reading := reading env; inputValue := [] |}
        else env
  end.

Section Readers.

(** The data URL a [FileReader] produces for a file. *)
Variable dataURL : File -> JS.jsstring.

(** The [onload] callback of the reader of [file]. *)
Definition onload (file : File) (env : Env) : Env :=
  {| issued := issued env ++ [SetImage (dataURL file)];
     reading := reading env; inputValue := inputValue env |}.

(** The readers load in the order [order]. *)
Definition loadAll (order : list File) (env : Env) : Env :=
  fold_left (fun env file => onload file env) order env.

End Readers.

Definition isImage (file : File) : bool :=
  startsWith (type file) (JS.lit "image/").

Definition attachment (file : File) : Command :=
  InsertAttachment (name file) (size file) (type file).

End DocEditor.

(* ================================================================== *)
(** * Readings of a run of the page *)
(* ================================================================== *)

Module HomeTrace.

Import Home.

(** The number of calls with non-empty content among the events. *)
Fixpoint editCount (evs : list Event) : Z :=
  match evs with
  | [] => 0
  | ContentChange content :: evs' =>
      (if 0 <? JS.length content then 1 else 0) + editCount evs'
  | _ :: evs' => editCount evs'
  end.

(** The content of the last call among the events, [fallback] if none. *)
Fixpoint lastContent (fallback : option JS.jsstring) (evs : list Event)
  : option JS.jsstring :=
  match evs with
  | [] => fallback
  | ContentChange content :: evs' => lastContent (Some content) evs'
  | _ :: evs' => lastContent fallback evs'
  end.

(** While the page is mounted a status other than Saved has a timer
    behind it, and no timer is due more than 900 ahead. *)
Definition Settles (st : State) : Prop :=
  (mounted st = true -> timers st = [] -> saveStatus st = Saved)
  /\ (forall tm, In tm (timers st) -> due tm <= now st + 900).

End HomeTrace.

(* ================================================================== *)
(** * Properties of the suggestion selector *)
(* ================================================================== *)

Section Select.

Import SuggestionsPanel.

Variables contentLength paragraphCount : Z.

(** Which branch of the chain is taken. *)
Lemma matched_cases :
  (contentLength < 100 /\ matched contentLength paragraphCount = bucket1)
  \/ (100 <= contentLength < 500 /\ matched contentLength paragraphCount = bucket2)
  \/ (500 <= contentLength /\ paragraphCount < 3
      /\ matched contentLength paragraphCount = bucket3)
  \/ (500 <= contentLength /\ 3 <= paragraphCount
      /\ matched contentLength paragraphCount = bucket4).
Proof.
  unfold matched, push.
  destruct (Z.ltb_spec contentLength 100); [left; split; [lia | reflexivity] | right].
  destruct (Z.ltb_spec contentLength 500); [left; split; [lia | reflexivity] | right].
  destruct (Z.ltb_spec paragraphCount 3).
  - left. repeat split; try lia.
  - right. repeat split; try lia.
Qed.

(** Every branch pushes two or four cards. *)
Lemma matched_length :
  (2 <= List.length (matched contentLength paragraphCount) <= 4)%nat.
Proof.
  destruct matched_cases as [[_ E] | [[_ E] | [(_ & _ & E) | (_ & _ & E)]]];
    rewrite E; simpl; lia.
Qed.

(** Neither the length test nor the slice changes the array. *)
Lemma suggestions_matched :
  suggestions contentLength paragraphCount = matched contentLength paragraphCount.
Proof.
  unfold suggestions.
  pose proof matched_length as L.
  destruct (Z.ltb_spec (Z.of_nat (List.length (matched contentLength paragraphCount))) 2);
    [lia |].
  unfold slice0. apply firstn_all2. lia.
Qed.

End Select.

(** C1. For every length >= 0 and paragraph count >= 0 the selector
    applies the four bucket rules in order, first match wins, and returns
    that bucket's literal list in its own order: below 100 characters the
    first bucket, below 500 the second, from 500 on the third when there
    are fewer than three paragraphs and the fourth otherwise.  Exactly one
    rule applies, and the buckets carry the tones and priorities of the
    rule table.  In particular [select(600, 1)] is bucket 3, two cards of
    which the first is structure/high, and [select(600, 5)] is bucket 4,
    four cards flow, evidence, clarity, structure with priorities mid,
    high, mid, high. *)
Theorem suggestions_first_match (contentLength paragraphCount : Z)
    (Hlen : 0 <= contentLength) (Hpar : 0 <= paragraphCount) :
  let s := SuggestionsPanel.suggestions contentLength paragraphCount in
  let badges := map SuggestionsPanel.badge in
  let structure := Some SuggestionsPanel.structure in
  let clarity := Some SuggestionsPanel.clarity in
  let evidence := Some SuggestionsPanel.evidence in
  let flow := Some SuggestionsPanel.flow in
  let high := Some SuggestionsPanel.high in
  let mid := Some SuggestionsPanel.mid in
  (contentLength < 100 -> s = SuggestionsPanel.bucket1)
  /\ (100 <= contentLength < 500 -> s = SuggestionsPanel.bucket2)
  /\ (500 <= contentLength -> paragraphCount < 3 -> s = SuggestionsPanel.bucket3)
  /\ (500 <= contentLength -> 3 <= paragraphCount -> s = SuggestionsPanel.bucket4)
  /\ (contentLength < 100
      \/ 100 <= contentLength < 500
      \/ (500 <= contentLength /\ paragraphCount < 3)
      \/ (500 <= contentLength /\ 3 <= paragraphCount))
  /\ badges SuggestionsPanel.bucket1 = [(structure, high); (clarity, mid)]
  /\ badges SuggestionsPanel.bucket2 = [(structure, high); (evidence, mid)]
  /\ badges SuggestionsPanel.bucket3 = [(structure, high); (flow, mid)]
  /\ badges SuggestionsPanel.bucket4
     = [(flow, mid); (evidence, high); (clarity, mid); (structure, high)]
  /\ SuggestionsPanel.suggestions 600 1 = SuggestionsPanel.bucket3
  /\ badges (SuggestionsPanel.suggestions 600 1) = [(structure, high); (flow, mid)]
  /\ SuggestionsPanel.suggestions 600 5 = SuggestionsPanel.bucket4
  /\ badges (SuggestionsPanel.suggestions 600 5)
     = [(flow, mid); (evidence, high); (clarity, mid); (structure, high)].
Proof.
  cbv zeta.
  rewrite suggestions_matched.
  destruct (matched_cases contentLength paragraphCount)
    as [[C E] | [[C E] | [(C1 & C2 & E) | (C1 & C2 & E)]]];
    rewrite E;
    repeat match goal with |- _ /\ _ => split end;
    try reflexivity; try (intros; exfalso; lia); try lia.
Qed.

Lemma suggestions_first_match_witness :
  SuggestionsPanel.suggestions 300 1 = SuggestionsPanel.bucket2.
Proof.
  assert (H0 : 0 <= 300) by lia.
  assert (H1 : 0 <= 1) by lia.
  destruct (suggestions_first_match 300 1 H0 H1) as (_ & B2 & _).
  apply B2. lia.
Defined.

(** C3. For every length >= 0 and paragraph count >= 0 the selector
    returns between 2 and 4 suggestions. *)
Theorem suggestions_length (contentLength paragraphCount : Z)
    (Hlen : 0 <= contentLength) (Hpar : 0 <= paragraphCount) :
  (2 <= List.length (SuggestionsPanel.suggestions contentLength paragraphCount) <= 4)%nat.
Proof.
  rewrite suggestions_matched. apply matched_length.
Qed.

Lemma suggestions_length_witness :
  (2 <= List.length (SuggestionsPanel.suggestions 0 0) <= 4)%nat.
Proof.
  apply (suggestions_length 0 0); lia.
Defined.

(** C9. The fallback branch is unreachable: for every length >= 0 and
    paragraph count >= 0 the matched bucket already holds at least two
    cards, so the length test is false, nothing is appended, and no
    returned card is the fallback one or carries its id "default-1". *)
Theorem fallback_unreachable (contentLength paragraphCount : Z)
    (Hlen : 0 <= contentLength) (Hpar : 0 <= paragraphCount) :
  let s := SuggestionsPanel.matched contentLength paragraphCount in
  (Z.of_nat (List.length s) <? 2) = false
  /\ SuggestionsPanel.suggestions contentLength paragraphCount = s
  /\ ~ In SuggestionsPanel.fallback
          (SuggestionsPanel.suggestions contentLength paragraphCount)
  /\ Forall (fun c => SuggestionsPanel.id c <> "default-1"%string)
            (SuggestionsPanel.suggestions contentLength paragraphCount).
Proof.
  cbv zeta.
  pose proof (matched_length contentLength paragraphCount) as L.
  rewrite suggestions_matched.
  split; [apply Z.ltb_ge; lia |].
  split; [reflexivity |].
  destruct (matched_cases contentLength paragraphCount)
    as [[_ E] | [[_ E] | [(_ & _ & E) | (_ & _ & E)]]];
    rewrite E; split;
    try (repeat constructor; discriminate);
    simpl; intros F; repeat (destruct F as [F | F]; [discriminate F |]); exact F.
Qed.

Lemma fallback_unreachable_witness :
  ~ In SuggestionsPanel.fallback (SuggestionsPanel.suggestions 600 5).
Proof.
  assert (H0 : 0 <= 600) by lia.
  assert (H1 : 0 <= 5) by lia.
  exact (proj1 (proj2 (proj2 (fallback_unreachable 600 5 H0 H1)))).
Defined.

(* ================================================================== *)
(** * Properties of the progress percentage *)
(* ================================================================== *)

Section Progress.

Import SuggestionsPanel.

(** The whole range the clamp lets through, evaluated in binary64. *)
Lemma progress_rows : forallb progressRowOk (lengthsUpTo 1000) = true.
Proof. vm_compute. reflexivity. Qed.

Lemma lengthsUpTo_In (k : nat) (n : Z) :
  0 <= n <= Z.of_nat k -> In n (lengthsUpTo k).
Proof.
  intros H. unfold lengthsUpTo.
  apply in_map_iff. exists (Z.to_nat n). split; [lia |].
  apply in_seq. lia.
Qed.

Lemma progress_row (n : Z) : 0 <= n <= 1000 -> progressRowOk n = true.
Proof.
  intros H.
  pose proof progress_rows as R.
  rewrite forallb_forall in R. apply R.
  apply (lengthsUpTo_In 1000). simpl. lia.
Qed.

Lemma progress_row_facts (n : Z) :
  0 <= n <= 1000 ->
  JS.isFinite (pct n) = true
  /\ 0 <= getProgress n <= 100
  /\ Z.abs (10 * getProgress n - n) <= 5
  /\ getProgress n <= getProgress (n + 1).
Proof.
  intros H. pose proof (progress_row n H) as R.
  unfold progressRowOk in R. cbv zeta in R.
  repeat (apply andb_prop in R; destruct R as [R ?]).
  repeat match goal with
         | X : (_ <=? _) = true |- _ => apply Z.leb_le in X
         end.
  repeat split; assumption || lia.
Qed.

(** The clamp is all [getProgress] sees of its argument. *)
Lemma getProgress_clamp (n : Z) : getProgress n = getProgress (clamp n 0 1000).
Proof.
  unfold getProgress, pct. f_equal. f_equal. f_equal. f_equal.
  unfold clamp. lia.
Qed.

Lemma getProgress_mono_range (a : Z) (k : nat) :
  0 <= a -> a + Z.of_nat k <= 1000 ->
  getProgress a <= getProgress (a + Z.of_nat k).
Proof.
  intros Ha. induction k as [| k IH]; intros Hb.
  - replace (a + Z.of_nat 0) with a by lia. lia.
  - assert (S1 : getProgress (a + Z.of_nat k) <= getProgress (a + Z.of_nat k + 1))
      by (apply progress_row_facts; lia).
    replace (a + Z.of_nat (S k)) with (a + Z.of_nat k + 1) by lia.
    assert (getProgress a <= getProgress (a + Z.of_nat k)) by (apply IH; lia).
    lia.
Qed.

Lemma getProgress_mono (n m : Z) : n <= m -> getProgress n <= getProgress m.
Proof.
  intros H.
  rewrite (getProgress_clamp n), (getProgress_clamp m).
  assert (Hc : 0 <= clamp n 0 1000 <= clamp m 0 1000 /\ clamp m 0 1000 <= 1000)
    by (unfold clamp; lia).
  replace (clamp m 0 1000)
    with (clamp n 0 1000 + Z.of_nat (Z.to_nat (clamp m 0 1000 - clamp n 0 1000)))
    by lia.
  apply getProgress_mono_range; lia.
Qed.

End Progress.

(** C6. For every length >= 0 the progress value is
    [Math.round(clamp(length, 0, 1000) / 1000 * 100)], the division and
    the product taken in binary64 as the code takes them: a finite
    number whose rounding is an integer in [0, 100] nearest to the exact
    percentage [clamp(length, 0, 1000) / 10], monotonic non-decreasing in
    the length and saturating from 1000 characters on; [progress(0) = 0],
    [progress(500) = 50], [progress(1000) = 100], [progress(5000) = 100]. *)
Theorem getProgress_spec (contentLength : Z) (Hlen : 0 <= contentLength) :
  let c := SuggestionsPanel.clamp contentLength 0 1000 in
  let p := SuggestionsPanel.getProgress contentLength in
  p = JS.Math_round
        (PrimFloat.mul (PrimFloat.div (JS.toNumber c) (JS.toNumber 1000))
                       (JS.toNumber 100))
  /\ c = Z.min contentLength 1000
  /\ JS.isFinite (SuggestionsPanel.pct contentLength) = true
  /\ 0 <= p <= 100
  /\ Z.abs (10 * p - c) <= 5
  /\ (forall longer, contentLength <= longer ->
        p <= SuggestionsPanel.getProgress longer)
  /\ (1000 <= contentLength -> p = 100)
  /\ SuggestionsPanel.getProgress 0 = 0
  /\ SuggestionsPanel.getProgress 500 = 50
  /\ SuggestionsPanel.getProgress 1000 = 100
  /\ SuggestionsPanel.getProgress 5000 = 100.
Proof.
  cbv zeta.
  assert (Hc : 0 <= SuggestionsPanel.clamp contentLength 0 1000 <= 1000)
    by (unfold SuggestionsPanel.clamp; lia).
  pose proof (progress_row_facts _ Hc) as (F & R & A & _).
  assert (P : SuggestionsPanel.pct contentLength
              = SuggestionsPanel.pct (SuggestionsPanel.clamp contentLength 0 1000)).
  { unfold SuggestionsPanel.pct. f_equal. f_equal. f_equal.
    unfold SuggestionsPanel.clamp. lia. }
  split; [reflexivity |].
  rewrite (getProgress_clamp contentLength).
  split; [unfold SuggestionsPanel.clamp; lia |].
  split; [rewrite P; exact F |].
  split; [exact R |].
  split; [exact A |].
  split.
  { intros longer L. rewrite <- (getProgress_clamp contentLength).
    apply getProgress_mono. exact L. }
  split.
  { intros L.
    replace (SuggestionsPanel.clamp contentLength 0 1000) with 1000
      by (unfold SuggestionsPanel.clamp; lia).
    vm_compute. reflexivity. }
  repeat split; vm_compute; reflexivity.
Qed.

Lemma getProgress_spec_witness :
  SuggestionsPanel.getProgress 250 <= SuggestionsPanel.getProgress 750
  /\ 0 <= SuggestionsPanel.getProgress 250 <= 100.
Proof.
  assert (H0 : 0 <= 250) by lia.
  destruct (getProgress_spec 250 H0) as (_ & _ & _ & R & _ & M & _).
  split; [apply M; lia | exact R].
Defined.

(** The ties of the exact percentage ([length] ending in 5) are rounded
    up, except where the binary64 product falls just short of the half:
    there the percentage is the lower neighbour. *)
Lemma getProgress_ties :
  filter (fun n => negb (SuggestionsPanel.getProgress n =? (n + 5) / 10))
         (SuggestionsPanel.lengthsUpTo 1000)
  = [145; 285; 565; 575]
  /\ map SuggestionsPanel.getProgress [145; 285; 565; 575] = [14; 28; 56; 57].
Proof. split; vm_compute; reflexivity. Qed.

(* ================================================================== *)
(** * Properties of the text metrics *)
(* ================================================================== *)

Section Trim.

Import JS.

Lemma trimStart_nil (s : jsstring) :
  trimStart s = [] <-> forallb isWhiteSpace s = true.
Proof.
  induction s as [| c s IH]; simpl.
  - tauto.
  - destruct (isWhiteSpace c); simpl; [exact IH |].
    split; intros H; discriminate H.
Qed.

(** What [trimStart] leaves starts with a character that is kept. *)
Lemma trimStart_head (s : jsstring) :
  match trimStart s with
  | [] => True
  | c :: _ => isWhiteSpace c = false
  end.
Proof.
  induction s as [| c s IH]; simpl; [exact I |].
  destruct (isWhiteSpace c) eqn:W; [exact IH | exact W].
Qed.

Lemma forallb_rev {A} (f : A -> bool) (l : list A) :
  forallb f (rev l) = forallb f l.
Proof.
  induction l as [| a l IH]; simpl; [reflexivity |].
  rewrite forallb_app, IH. simpl. rewrite andb_true_r. apply andb_comm.
Qed.

Lemma trim_nil (s : jsstring) :
  trim s = [] <-> forallb isWhiteSpace s = true.
Proof.
  unfold trim, trimEnd.
  rewrite <- trimStart_nil.
  split.
  - intros H.
    assert (R : trimStart (rev (trimStart s)) = []).
    { apply (f_equal (@rev _)) in H. rewrite rev_involutive in H. exact H. }
    apply trimStart_nil in R. rewrite forallb_rev in R.
    pose proof (trimStart_head s) as Hd.
    destruct (trimStart s) as [| c t]; [reflexivity |].
    simpl in R. rewrite Hd in R. discriminate R.
  - intros H. rewrite H. reflexivity.
Qed.

Lemma existsb_negb_forallb {A} (f : A -> bool) (l : list A) :
  existsb (fun a => negb (f a)) l = negb (forallb f l).
Proof.
  induction l as [| a l IH]; simpl; [reflexivity |].
  rewrite IH. destruct (f a); reflexivity.
Qed.

(** The filter predicate of [handleContentChange] holds of the lines with
    a character that is not white space. *)
Lemma trim_length_nonBlank (line : jsstring) :
  (0 <? JS.length (trim line)) = Home.nonBlank line.
Proof.
  unfold Home.nonBlank. rewrite existsb_negb_forallb.
  destruct (forallb isWhiteSpace line) eqn:W.
  - apply trim_nil in W. rewrite W. reflexivity.
  - simpl. apply Z.ltb_lt. unfold JS.length.
    destruct (trim line) as [| c t] eqn:T.
    + apply trim_nil in T. congruence.
    + simpl List.length. lia.
Qed.

End Trim.

Section Split.

Import JS.

Variable sep : code_unit.

Lemma split_not_nil (s : jsstring) : split sep s <> [].
Proof.
  destruct s as [| c s]; simpl; [discriminate |].
  destruct (c =? sep); [discriminate |].
  destruct (split sep s); discriminate.
Qed.

(** Putting the separators back gives the string. *)
Lemma join_split (s : jsstring) : join sep (split sep s) = s.
Proof.
  induction s as [| c s IH]; simpl; [reflexivity |].
  destruct (Z.eqb_spec c sep) as [-> | N].
  - pose proof (split_not_nil s) as NN.
    simpl. destruct (split sep s) as [| p ps]; [congruence |].
    rewrite IH. reflexivity.
  - pose proof (split_not_nil s) as NN.
    destruct (split sep s) as [| p ps]; [congruence |].
    simpl in *. destruct ps as [| q qs].
    + rewrite IH. reflexivity.
    + rewrite <- IH. reflexivity.
Qed.

(** No piece holds a separator: the pieces are the maximal runs. *)
Lemma split_pieces (s : jsstring) :
  Forall (fun piece => ~ In sep piece) (split sep s).
Proof.
  induction s as [| c s IH]; simpl.
  - constructor; [intros [] | constructor].
  - destruct (Z.eqb_spec c sep) as [-> | N].
    + constructor; [intros [] | exact IH].
    + destruct (split sep s) as [| p ps].
      * constructor; [| constructor]. intros [E | []]. congruence.
      * inversion IH as [| ? ? Hp Hps]; subst.
        constructor; [| exact Hps].
        intros [E | I]; [congruence | exact (Hp I)].
Qed.

(** The characters of the string are those of the pieces and one
    separator between neighbours. *)
Lemma split_lengths (s : jsstring) :
  (List.length s + 1
   = list_sum (map (@List.length _) (split sep s)) + List.length (split sep s))%nat.
Proof.
  induction s as [| c s IH]; simpl; [reflexivity |].
  destruct (c =? sep).
  - simpl. lia.
  - destruct (split sep s) as [| p ps]; simpl in *; lia.
Qed.

End Split.

Section Count.

Variable A : Type.
Variable keep : list A -> bool.
Hypothesis keep_not_nil : forall piece, keep piece = true -> piece <> [].

(** Each piece kept holds a character of its own. *)
Lemma filter_length_sum (pieces : list (list A)) :
  (List.length (filter keep pieces) <= list_sum (map (@List.length _) pieces))%nat.
Proof.
  induction pieces as [| p ps IH]; simpl; [lia |].
  destruct (keep p) eqn:K; simpl; [| lia].
  apply keep_not_nil in K. destruct p; [congruence | simpl; lia].
Qed.

End Count.

Lemma nonBlank_not_nil (line : JS.jsstring) : Home.nonBlank line = true -> line <> [].
Proof. intros H E. subst. discriminate H. Qed.

Lemma paragraphs_nonBlank (content : JS.jsstring) :
  Home.paragraphs content = filter Home.nonBlank (JS.split JS.LF content).
Proof.
  unfold Home.paragraphs. apply filter_ext. intros line. apply trim_length_nonBlank.
Qed.

Lemma paragraphs_bound (content : JS.jsstring) :
  (List.length (Home.paragraphs content) <= List.length content)%nat.
Proof.
  rewrite paragraphs_nonBlank.
  pose proof (filter_length_sum _ Home.nonBlank nonBlank_not_nil
                (JS.split JS.LF content)) as B.
  pose proof (split_lengths JS.LF content) as L.
  assert (N : (1 <= List.length (JS.split JS.LF content))%nat).
  { pose proof (split_not_nil JS.LF content) as N.
    destruct (JS.split JS.LF content); [congruence | simpl; lia]. }
  unfold JS.jsstring in *. lia.
Qed.

(** The two metrics [handleContentChange] stores. *)
Lemma handleContentChange_metrics (content : JS.jsstring) (st : Home.State) :
  Home.contentLength (Home.handleContentChange content st) = JS.length content
  /\ Home.paragraphCount (Home.handleContentChange content st)
     = Z.of_nat (List.length (Home.paragraphs content)).
Proof.
  unfold Home.handleContentChange, Home.storeMetrics.
  destruct (0 <? JS.length content); [| split; reflexivity].
  unfold Home.markEditing, Home.cancelPending. simpl.
  destruct (Home.saveTimerRef st) as [h |]; [destruct (h =? 0) |];
    split; reflexivity.
Qed.

(** C5. For every plain-text content the paragraph count that
    [handleContentChange] stores is the number of lines with at least one
    character that is not white space, where the lines are the pieces of
    the split on the newline character: joined by newlines they give the
    content back and none of them holds a newline, and a line passes the
    filter (its trimmed length is positive) exactly when it has such a
    character.  The content "a\n\nb\n  \nc" has paragraph count 3. *)
Theorem paragraphCount_nonBlankLines (content : JS.jsstring) (st : Home.State) :
  Home.paragraphCount (Home.handleContentChange content st)
  = Home.nonBlankLines content
  /\ JS.join JS.LF (JS.split JS.LF content) = content
  /\ Forall (fun line => ~ In JS.LF line) (JS.split JS.LF content)
  /\ (forall line,
        0 < JS.length (JS.trim line)
        <-> exists c, In c line /\ JS.isWhiteSpace c = false)
  /\ Home.paragraphCount
       (Home.handleContentChange
          (JS.lit "a" ++ [JS.LF; JS.LF] ++ JS.lit "b"
           ++ [JS.LF; 32; 32; JS.LF] ++ JS.lit "c") st) = 3.
Proof.
  split.
  { destruct (handleContentChange_metrics content st) as [_ ->].
    unfold Home.nonBlankLines. rewrite paragraphs_nonBlank. reflexivity. }
  split; [apply join_split |].
  split; [apply split_pieces |].
  split.
  { intros line. rewrite <- Z.ltb_lt, trim_length_nonBlank.
    unfold Home.nonBlank. rewrite existsb_exists.
    split; intros (c & I & W); exists c; split; try exact I.
    - apply negb_true_iff. exact W.
    - apply negb_true_iff. exact W. }
  destruct (handleContentChange_metrics
              (JS.lit "a" ++ [JS.LF; JS.LF] ++ JS.lit "b"
               ++ [JS.LF; 32; 32; JS.LF] ++ JS.lit "c") st) as [_ ->].
  reflexivity.
Qed.

(** C10. For every plain-text content the stored metrics satisfy
    paragraph count <= content length, the content length being the
    number of code units of the content; when the content length is 0 the
    paragraph count is 0 and the panel, given these two metrics, shows
    bucket 1. *)
Theorem paragraphCount_le_contentLength (content : JS.jsstring) (st : Home.State) :
  let st' := Home.handleContentChange content st in
  Home.contentLength st' = JS.length content
  /\ 0 <= Home.paragraphCount st' <= Home.contentLength st'
  /\ (Home.contentLength st' = 0 ->
      Home.paragraphCount st' = 0
      /\ SuggestionsPanel.suggestions (Home.contentLength st') (Home.paragraphCount st')
         = SuggestionsPanel.bucket1).
Proof.
  cbv zeta.
  destruct (handleContentChange_metrics content st) as [-> ->].
  pose proof (paragraphs_bound content) as B.
  unfold JS.length.
  split; [reflexivity |].
  split; [lia |].
  intros Z0.
  assert (P0 : Z.of_nat (List.length (Home.paragraphs content)) = 0) by lia.
  rewrite Z0, P0. split; reflexivity.
Qed.

(* ================================================================== *)
(** * Properties of the save-status tracker *)
(* ================================================================== *)

Section Tracker.

Import Home.

(** [cancelPending] only touches the timer list. *)
Lemma cancelPending_frame (st : State) :
  now (cancelPending st) = now st
  /\ saveStatus (cancelPending st) = saveStatus st
  /\ saveTimerRef (cancelPending st) = saveTimerRef st
  /\ nextHandle (cancelPending st) = nextHandle st
  /\ mounted (cancelPending st) = mounted st.
Proof.
  unfold cancelPending.
  destruct (saveTimerRef st) as [h |] eqn:R; [destruct (h =? 0) |];
    simpl; rewrite ?R; repeat split; reflexivity.
Qed.

(** When the only timer there can be is the one the ref points to,
    [cancelPending] leaves none. *)
Lemma cancelPending_timers (st : State) :
  (timers st = []
   \/ exists tm, timers st = [tm] /\ saveTimerRef st = Some (handle tm) /\ 0 < handle tm) ->
  timers (cancelPending st) = [].
Proof.
  intros [E | (tm & E & R & P)]; unfold cancelPending.
  - destruct (saveTimerRef st) as [h |]; [destruct (h =? 0) |];
      simpl; rewrite ?E; reflexivity.
  - rewrite R. destruct (Z.eqb_spec (handle tm) 0) as [Z0 | _]; [lia |].
    simpl. rewrite E. simpl. rewrite Z.eqb_refl. reflexivity.
Qed.

Lemma Inv_owned (last : option Z) (st : State) :
  Inv last st ->
  timers st = []
  \/ exists tm, timers st = [tm] /\ saveTimerRef st = Some (handle tm) /\ 0 < handle tm.
Proof.
  intros (_ & [E | (tm & E & R & P & _)] & _); [left; exact E |].
  right. exists tm. repeat split; assumption.
Qed.

Lemma Inv_initial : Inv None initial.
Proof.
  split; [simpl; lia |]. split; [left; reflexivity | reflexivity].
Qed.

(** The debounce branch: the status is Editing and one timer is left,
    due 900 after the call. *)
Lemma markEditing_result (last : option Z) (st : State) :
  Inv last st ->
  saveStatus (markEditing st) = Editing
  /\ timers (markEditing st) = [ {| handle := nextHandle st; due := now st + 900 |} ]
  /\ saveTimerRef (markEditing st) = Some (nextHandle st)
  /\ nextHandle (markEditing st) = nextHandle st + 1
  /\ now (markEditing st) = now st
  /\ mounted (markEditing st) = mounted st.
Proof.
  intros I.
  pose proof (cancelPending_timers (setSaveStatus Editing st) (Inv_owned _ _ I)) as C.
  pose proof (cancelPending_frame (setSaveStatus Editing st)) as (F1 & F2 & F3 & F4 & F5).
  unfold markEditing, setTimeout. simpl.
  rewrite C, F1, F2, F4, F5. simpl. repeat split; reflexivity.
Qed.

Lemma Inv_advance (last : option Z) (st : State) (dt : Z) :
  0 <= dt -> Inv last st -> Inv last (advance dt st).
Proof.
  intros D (N & T & S). split; [exact N |]. split; [exact T |].
  destruct last as [t |]; [| exact S].
  simpl. destruct S as [S | S]; [left; exact S | right; lia].
Qed.

Lemma Inv_fire (last : option Z) (st : State) (h : Z) (tm : Timer) :
  Inv last st ->
  find (fun t => handle t =? h) (timers st) = Some tm ->
  due tm <= now st ->
  Inv last (setSaveStatus Saved (clearTimeout h st)).
Proof.
  intros (N & T & S) F D.
  destruct T as [E | (tm' & E & R & P & Ed & M & L)];
    [rewrite E in F; discriminate F |].
  rewrite E in F. simpl in F.
  destruct (Z.eqb_spec (handle tm') h) as [Eh | Nh]; [| discriminate F].
  injection F as <-.
  split; [exact N |]. split.
  - left. simpl. rewrite E. simpl.
    destruct (Z.eqb_spec (handle tm') h); [reflexivity | contradiction].
  - subst last. right. simpl. lia.
Qed.

Lemma Inv_storeMetrics (last : option Z) (st : State) (content : JS.jsstring) :
  Inv last st -> Inv last (storeMetrics content st).
Proof. intros I. exact I. Qed.

Lemma Inv_markEditing (last : option Z) (st : State) :
  Inv last st -> mounted st = true -> Inv (Some (now st)) (markEditing st).
Proof.
  intros I M.
  pose proof (markEditing_result _ _ I) as (S & T & R & N & C & Mo).
  destruct I as (Np & _).
  split; [lia |]. split; [| left; exact S].
  right. eexists. split; [exact T |]. cbn [handle due].
  repeat split; try assumption; try lia.
  - congruence.
  - f_equal. lia.
Qed.

Lemma Inv_cleanup (last : option Z) (st : State) :
  Inv last st -> Inv last (cleanup st) /\ timers (cleanup st) = [].
Proof.
  intros I.
  pose proof (cancelPending_timers st (Inv_owned _ _ I)) as C.
  pose proof (cancelPending_frame st) as (F1 & F2 & F3 & F4 & F5).
  destruct I as (N & T & S).
  split; [| exact C].
  split; [simpl; lia |]. split; [left; exact C |].
  simpl. rewrite F1, F2.
  destruct last; [| exact S].
  destruct T as [_ | (tm & _ & _ & _ & Ed & _)]; [exact S | left; exact Ed].
Qed.

(** The invariant along any run, with the clock of the last call read
    off the events. *)
Lemma run_Inv (evs : list Event) :
  forall (st st' : State) (last : option Z),
    Inv last st -> run evs st = Some st' ->
    Inv (lastEditFrom (now st) last evs) st'.
Proof.
  induction evs as [| e evs IH]; intros st st' last I R; simpl in R.
  - injection R as <-. exact I.
  - destruct e as [dt | h | content |]; simpl in R; simpl lastEditFrom.
    + destruct (Z.leb_spec 0 dt) as [D | D]; [| discriminate R].
      apply (IH (advance dt st) st' last); [apply Inv_advance; assumption | exact R].
    + destruct (find (fun t => handle t =? h) (timers st)) as [tm |] eqn:F;
        [| discriminate R].
      destruct (Z.leb_spec (due tm) (now st)) as [D | D]; [| discriminate R].
      apply (IH (setSaveStatus Saved (clearTimeout h st)) st' last);
        [eapply Inv_fire; eassumption | exact R].
    + destruct (mounted st) eqn:M; [| discriminate R].
      unfold handleContentChange in R. cbv zeta in R.
      destruct (0 <? JS.length content).
      * pose proof (markEditing_result last _ (Inv_storeMetrics _ _ content I))
          as (_ & _ & _ & _ & C & _).
        change (now (storeMetrics content st)) with (now st) in C.
        rewrite <- C. apply IH; [| exact R]. rewrite C.
        apply (Inv_markEditing last (storeMetrics content st));
          [apply Inv_storeMetrics; exact I | exact M].
      * apply (IH (storeMetrics content st) st' last);
          [apply Inv_storeMetrics; exact I | exact R].
    + destruct (mounted st); [| discriminate R].
      assert (C : now (cleanup st) = now st)
        by (unfold cleanup; cbn [now]; apply cancelPending_frame).
      rewrite <- C. apply IH; [apply Inv_cleanup; exact I | exact R].
Qed.

Lemma reachable_Inv (evs : list Event) (st : State) :
  run evs initial = Some st -> Inv (lastEdit evs) st.
Proof. intros R. exact (run_Inv evs initial st None Inv_initial R). Qed.

Lemma lastEditFrom_quiet (evs : list Event) :
  forall (t : Z) (last : option Z),
    quiet evs = true -> lastEditFrom t last evs = last.
Proof.
  induction evs as [| e evs IH]; intros t last Q; [reflexivity |].
  simpl in Q. apply andb_prop in Q. destruct Q as [Qe Q].
  destruct e as [dt | h | content |]; simpl; try (apply IH; exact Q).
  apply negb_true_iff in Qe. rewrite Qe. apply IH. exact Q.
Qed.

(** Once unmounted with no timer left, only the clock moves. *)
Lemma run_unmounted (evs : list Event) :
  forall st st' : State,
    mounted st = false -> timers st = [] -> run evs st = Some st' ->
    mounted st' = false /\ timers st' = [] /\ saveStatus st' = saveStatus st.
Proof.
  induction evs as [| e evs IH]; intros st st' M T R; simpl in R.
  - injection R as <-. repeat split; assumption.
  - destruct e as [dt | h | content |]; simpl in R.
    + destruct (0 <=? dt); [| discriminate R].
      apply (IH (advance dt st) st'); assumption.
    + rewrite T in R. discriminate R.
    + rewrite M in R. discriminate R.
    + rewrite M in R. discriminate R.
Qed.

End Tracker.

Section TrackerClaims.

Import Home.

(** C2. Every call of [handleContentChange] with a non-empty content
    sets the status to Editing at once, cancels the pending timer and
    schedules a new one 900 units ahead, so that this timer is the only
    one left.  Consequently, along any run of the page, the status is
    Editing as long as the clock is less than 900 units past the last
    such call, however many calls came before and however closely; a
    Saved status after such a call means that 900 units have passed since
    the last one.  After calls at 0, 100 and 200 the only timer is the
    third, due at 1100: whatever happens next short of a further edit,
    the status is Editing while the clock is at most 1099, and the timer
    can run at any clock value from 1100 on and then sets Saved. *)
Theorem debounce_guarantee (evs : list Event) (st : State)
    (Hrun : run evs initial = Some st) :
  (forall content,
      mounted st = true -> 0 < JS.length content ->
      step (ContentChange content) st = Some (handleContentChange content st)
      /\ saveStatus (handleContentChange content st) = Editing
      /\ timers (handleContentChange content st)
         = [ {| handle := nextHandle st; due := now st + 900 |} ]
      /\ saveTimerRef (handleContentChange content st) = Some (nextHandle st))
  /\ (forall t, lastEdit evs = Some t -> now st < t + 900 -> saveStatus st = Editing)
  /\ (forall t, lastEdit evs = Some t -> saveStatus st = Saved -> t + 900 <= now st)
  /\ run threeEdits initial = Some afterThreeEdits
  /\ lastEdit threeEdits = Some 200
  /\ (forall post st',
        quiet post = true -> run post afterThreeEdits = Some st' ->
        now st' <= 1099 -> saveStatus st' = Editing)
  /\ (forall dt,
        900 <= dt ->
        exists st',
          run [Elapse dt; TimerFires 3] afterThreeEdits = Some st'
          /\ now st' = 200 + dt /\ saveStatus st' = Saved).
Proof.
  pose proof (reachable_Inv evs st Hrun) as I.
  split.
  { intros content M L.
    split; [simpl; rewrite M; reflexivity |].
    unfold handleContentChange. cbv zeta.
    apply Z.ltb_lt in L. rewrite L.
    pose proof (markEditing_result _ _ (Inv_storeMetrics _ _ content I))
      as (S & T & R & _).
    repeat split; assumption. }
  split.
  { intros t E B. destruct I as (_ & _ & S). rewrite E in S.
    destruct S as [S | S]; [exact S | lia]. }
  split.
  { intros t E Sv. destruct I as (_ & _ & S). rewrite E in S.
    destruct S as [S | S]; [congruence | exact S]. }
  split; [reflexivity |].
  split; [reflexivity |].
  split.
  { intros post st' Q R B.
    assert (I3 : Inv (Some 200) afterThreeEdits)
      by (exact (reachable_Inv threeEdits afterThreeEdits eq_refl)).
    pose proof (run_Inv post afterThreeEdits st' (Some 200) I3 R) as (_ & _ & S).
    rewrite (lastEditFrom_quiet post _ _ Q) in S.
    destruct S as [S | S]; [exact S | lia]. }
  intros dt D.
  assert (E1 : step (Elapse dt) afterThreeEdits = Some (advance dt afterThreeEdits)).
  { unfold step. destruct (Z.leb_spec 0 dt); [reflexivity | lia]. }
  assert (E2 : step (TimerFires 3) (advance dt afterThreeEdits)
               = Some (setSaveStatus Saved (clearTimeout 3 (advance dt afterThreeEdits)))).
  { unfold step.
    change (find (fun t => handle t =? 3) (timers (advance dt afterThreeEdits)))
      with (Some {| handle := 3; due := 1100 |}).
    cbv iota beta.
    change (due {| handle := 3; due := 1100 |}) with 1100.
    change (now (advance dt afterThreeEdits)) with (200 + dt).
    destruct (Z.leb_spec 1100 (200 + dt)); [reflexivity | lia]. }
  exists (setSaveStatus Saved (clearTimeout 3 (advance dt afterThreeEdits))).
  split; [unfold run; rewrite E1, E2; reflexivity |].
  split; reflexivity.
Qed.

Lemma debounce_guarantee_witness :
  run (threeEdits ++ [Elapse 899]) initial
  = Some (advance 899 afterThreeEdits)
  /\ saveStatus (advance 899 afterThreeEdits) = Editing.
Proof.
  assert (R : run (threeEdits ++ [Elapse 899]) initial
              = Some (advance 899 afterThreeEdits)) by reflexivity.
  split; [exact R |].
  destruct (debounce_guarantee _ _ R) as (_ & G & _).
  apply (G 200); [reflexivity | simpl; lia].
Defined.

(** C4. A call of [handleContentChange] with content of length 0 leaves
    the tracker as it was: status, timer ref, timer list and handle
    counter are unchanged, so no timer is scheduled or cancelled and a
    timer that could run before the call can run after it and sets Saved.
    After an edit at clock 0 and an empty content at clock 100, the timer
    of the edit runs at 900. *)
Theorem empty_content_frame (content : JS.jsstring) (st : State)
    (Hempty : JS.length content = 0) :
  let st' := handleContentChange content st in
  saveStatus st' = saveStatus st
  /\ saveTimerRef st' = saveTimerRef st
  /\ timers st' = timers st
  /\ nextHandle st' = nextHandle st
  /\ now st' = now st
  /\ mounted st' = mounted st
  /\ (forall h st1,
        step (TimerFires h) st = Some st1 ->
        exists st2,
          step (TimerFires h) st' = Some st2
          /\ saveStatus st2 = Saved /\ timers st2 = timers st1)
  /\ (exists st2,
        run [ContentChange (JS.lit "a"); Elapse 100; ContentChange [];
             Elapse 800; TimerFires 1] initial = Some st2
        /\ now st2 = 900 /\ saveStatus st2 = Saved /\ timers st2 = []).
Proof.
  cbv zeta. unfold handleContentChange. cbv zeta.
  rewrite Hempty. change (0 <? 0) with false. cbv iota.
  repeat (split; [reflexivity |]).
  split.
  - intros h st1 F. simpl in F |- *.
    destruct (find (fun t => handle t =? h) (timers st)) as [tm |]; [| discriminate F].
    destruct (due tm <=? now st); [| discriminate F].
    injection F as <-.
    eexists. split; [reflexivity |]. split; reflexivity.
  - eexists. split; [reflexivity |]. repeat split; reflexivity.
Qed.

Lemma empty_content_frame_witness :
  timers (handleContentChange [] afterThreeEdits) = [ {| handle := 3; due := 1100 |} ]
  /\ saveStatus (handleContentChange [] afterThreeEdits) = Editing.
Proof.
  assert (E : JS.length [] = 0) by reflexivity.
  destruct (empty_content_frame [] afterThreeEdits E) as (S & _ & T & _).
  split; [rewrite T; reflexivity | rewrite S; reflexivity].
Defined.

(** C7. At every point of any run the window holds at most one timer of
    the page, and it is the one the timer ref points to.  Inside a call
    with non-empty content the timer list is empty after the cancelling
    step, before the new timer is scheduled, and holds exactly the new
    timer afterwards. *)
Theorem at_most_one_timer (evs : list Event) (st : State)
    (Hrun : run evs initial = Some st) :
  (List.length (timers st) <= 1)%nat
  /\ (forall tm, In tm (timers st) -> saveTimerRef st = Some (handle tm))
  /\ (forall content,
        0 < JS.length content ->
        timers (cancelPending (setSaveStatus Editing (storeMetrics content st))) = []
        /\ List.length (timers (handleContentChange content st)) = 1%nat).
Proof.
  pose proof (reachable_Inv evs st Hrun) as I.
  split.
  { destruct I as (_ & [E | (tm & E & _)] & _); rewrite E; simpl; lia. }
  split.
  { intros tm M. destruct I as (_ & [E | (tm' & E & R & _)] & _); rewrite E in M.
    - destruct M.
    - destruct M as [<- | []]. exact R. }
  intros content L. split.
  - apply cancelPending_timers.
    exact (Inv_owned _ _ I).
  - unfold handleContentChange. cbv zeta.
    apply Z.ltb_lt in L. rewrite L.
    pose proof (markEditing_result _ _ (Inv_storeMetrics _ _ content I))
      as (_ & T & _).
    rewrite T. reflexivity.
Qed.

Lemma at_most_one_timer_witness :
  (List.length (timers afterThreeEdits) <= 1)%nat.
Proof.
  assert (R : run threeEdits initial = Some afterThreeEdits) by reflexivity.
  exact (proj1 (at_most_one_timer threeEdits afterThreeEdits R)).
Defined.

(** C8. When the page is unmounted the cleanup cancels the pending
    timer, and nothing that can happen afterwards changes the status:
    no timer of the page is left to run and the editor no longer reports
    content. *)
Theorem teardown_final (evs post : list Event) (st st' : State)
    (Hrun : run evs initial = Some st)
    (Hpost : run (Unmount :: post) st = Some st') :
  timers (cleanup st) = []
  /\ saveStatus (cleanup st) = saveStatus st
  /\ timers st' = []
  /\ saveStatus st' = saveStatus st
  /\ mounted st' = false
  /\ (forall h, step (TimerFires h) st' = None)
  /\ (forall content, step (ContentChange content) st' = None).
Proof.
  pose proof (reachable_Inv evs st Hrun) as I.
  destruct (Inv_cleanup _ _ I) as [_ C].
  assert (S : saveStatus (cleanup st) = saveStatus st)
    by (unfold cleanup; cbn [saveStatus]; apply cancelPending_frame).
  simpl in Hpost.
  destruct (mounted st); [| discriminate Hpost].
  destruct (run_unmounted post (cleanup st) st' eq_refl C Hpost) as (M & T & E).
  repeat split; try assumption.
  - congruence.
  - intros h. simpl. rewrite T. reflexivity.
  - intros content. simpl. rewrite M. reflexivity.
Qed.

Lemma teardown_final_witness :
  exists st',
    run (Unmount :: [Elapse 5000]) afterThreeEdits = Some st'
    /\ saveStatus st' = Editing /\ timers st' = [].
Proof.
  assert (R : run threeEdits initial = Some afterThreeEdits) by reflexivity.
  eexists. split; [reflexivity |].
  destruct (teardown_final threeEdits [Elapse 5000] afterThreeEdits _ R eq_refl)
    as (_ & _ & T & S & _).
  split; [exact S | exact T].
Defined.

End TrackerClaims.

(* ================================================================== *)
(** * Further properties of the panel *)
(* ================================================================== *)

Section PanelView.

Import SuggestionsPanel SuggestionsPanelView.

(** X1. With [min <= max] the clamp lies between the bounds, leaves a
    value between them alone and sends a value outside to the nearer
    bound. *)
Theorem clamp_range (n min max : Z) (Hbounds : min <= max) :
  min <= clamp n min max <= max
  /\ (min <= n <= max -> clamp n min max = n)
  /\ (n < min -> clamp n min max = min)
  /\ (max < n -> clamp n min max = max).
Proof. unfold clamp. lia. Qed.

Lemma clamp_range_witness : clamp 5000 0 1000 = 1000.
Proof.
  assert (H : 0 <= 1000) by lia.
  apply (clamp_range 5000 0 1000 H). lia.
Defined.

Lemma progress_shape_rows : forallb progressShapeOk (lengthsUpTo 1000) = true.
Proof. vm_compute. reflexivity. Qed.

Lemma getProgress_below (n : Z) : n <= 0 -> getProgress n = 0.
Proof.
  intros H. rewrite getProgress_clamp.
  replace (clamp n 0 1000) with 0 by (unfold clamp; lia).
  vm_compute. reflexivity.
Qed.

Lemma getProgress_above (n : Z) : 1000 <= n -> getProgress n = 100.
Proof.
  intros H. rewrite getProgress_clamp.
  replace (clamp n 0 1000) with 1000 by (unfold clamp; lia).
  vm_compute. reflexivity.
Qed.

(** X2. For every integer length the percentage is 0 exactly up to 4
    characters and 100 exactly from 995 characters on, and one more
    character raises it by at most one point. *)
Theorem getProgress_shape (n : Z) :
  (getProgress n = 0 <-> n <= 4)
  /\ (getProgress n = 100 <-> 995 <= n)
  /\ 0 <= getProgress (n + 1) - getProgress n <= 1.
Proof.
  pose proof (getProgress_mono n (n + 1)) as Mono.
  destruct (Z_lt_le_dec n 0) as [Neg | Pos].
  - rewrite (getProgress_below n), (getProgress_below (n + 1)) by lia.
    repeat split; intros; lia.
  - destruct (Z_le_gt_dec n 1000) as [In | Out].
    + assert (R : progressShapeOk n = true).
      { pose proof progress_shape_rows as R. rewrite forallb_forall in R.
        apply R. apply (lengthsUpTo_In 1000). simpl. lia. }
      unfold progressShapeOk in R. cbv zeta in R.
      apply andb_prop in R. destruct R as [R S].
      apply andb_prop in R. destruct R as [R0 R100].
      apply Bool.eqb_prop in R0. apply Bool.eqb_prop in R100.
      apply Z.leb_le in S.
      split; [| split; [| lia]].
      * rewrite <- Z.eqb_eq, R0. apply Z.leb_le.
      * rewrite <- Z.eqb_eq, R100. apply Z.leb_le.
    + rewrite (getProgress_above n), (getProgress_above (n + 1)) by lia.
      repeat split; intros; lia.
Qed.

(** X3. The React keys of the rendered cards are "1", "2", ... in order,
    as many as there are cards, so no two cards of a list share a key. *)
Theorem keys_positional (contentLength paragraphCount : Z) :
  let cards := suggestions contentLength paragraphCount in
  keys cards = firstn (List.length cards) ["1"; "2"; "3"; "4"]%string
  /\ NoDup (keys cards).
Proof.
  cbv zeta. rewrite suggestions_matched.
  destruct (matched_cases contentLength paragraphCount)
    as [[_ E] | [[_ E] | [(_ & _ & E) | (_ & _ & E)]]];
    rewrite E; (split; [reflexivity |]);
    repeat (constructor; [simpl; intuition discriminate |]); constructor.
Qed.

(** X4. Every card of every returned list carries a tone and a priority,
    and the priority is high or mid: the pill text never falls back to
    "low" and neither the default pill style nor the default tone dot is
    ever used. *)
Theorem cards_classified (contentLength paragraphCount : Z) :
  Forall (fun s =>
            tone s <> None
            /\ (priority s = Some high \/ priority s = Some mid)
            /\ (pillText s = "high" \/ pillText s = "mid")%string
            /\ pillStyle (priority s) <> pillStyle None
            /\ toneDot (tone s) <> toneDot None)
         (suggestions contentLength paragraphCount).
Proof.
  rewrite suggestions_matched.
  destruct (matched_cases contentLength paragraphCount)
    as [[_ E] | [[_ E] | [(_ & _ & E) | (_ & _ & E)]]];
    rewrite E;
    repeat (constructor;
            [simpl; repeat split; (discriminate || (left; reflexivity)
                                   || (right; reflexivity)) |]);
    constructor.
Qed.

(** X7. Below 500 characters the paragraph count has no influence on the
    suggestions, and from 500 on only whether it is below 3 has. *)
Theorem paragraphCount_influence (contentLength p q : Z) :
  (contentLength < 500 -> suggestions contentLength p = suggestions contentLength q)
  /\ ((p <? 3) = (q <? 3) -> suggestions contentLength p = suggestions contentLength q)
  /\ (500 <= contentLength -> p < 3 <= q ->
      suggestions contentLength p <> suggestions contentLength q).
Proof.
  rewrite !suggestions_matched. unfold matched, push.
  split; [| split].
  - intros L.
    destruct (contentLength <? 100); [reflexivity |].
    destruct (Z.ltb_spec contentLength 500); [reflexivity | lia].
  - intros E. rewrite E. reflexivity.
  - intros L [Hp Hq].
    destruct (Z.ltb_spec contentLength 100); [lia |].
    destruct (Z.ltb_spec contentLength 500); [lia |].
    destruct (Z.ltb_spec p 3); [| lia].
    destruct (Z.ltb_spec q 3); [lia |].
    discriminate.
Qed.

End PanelView.

Section Selection.

Import SuggestionsPanel SuggestionsPanelView.

(** X5. After a click on a card of the current list exactly that card is
    highlighted. *)
Theorem click_highlights_one (contentLength paragraphCount : Z) (s : Suggestion)
    (Hin : In s (suggestions contentLength paragraphCount)) :
  highlighted (click s) (suggestions contentLength paragraphCount) = [s].
Proof.
  revert Hin. rewrite suggestions_matched.
  destruct (matched_cases contentLength paragraphCount)
    as [[_ E] | [[_ E] | [(_ & _ & E) | (_ & _ & E)]]];
    rewrite E; simpl; intros H;
    repeat (destruct H as [<- | H]; [reflexivity |]); destruct H.
Qed.

Lemma click_highlights_one_witness :
  highlighted (click (nth 2 bucket4 fallback)) (suggestions 600 5)
  = [nth 2 bucket4 fallback].
Proof.
  apply (click_highlights_one 600 5). simpl. right. right. left. reflexivity.
Defined.

(** X6. The selection is kept by id and the ids are positions, so when
    the list is recomputed the highlight stays on the card at the same
    position, whatever that card now says, and disappears when the new
    list has no card there. *)
Theorem selection_by_position (l p l' p' : Z) (i : nat) (s : Suggestion)
    (Hcard : nth_error (suggestions l p) i = Some s) :
  highlighted (click s) (suggestions l' p')
  = match nth_error (suggestions l' p') i with
    | Some s' => [s']
    | None => []
    end.
Proof.
  revert Hcard. rewrite !suggestions_matched.
  destruct (matched_cases l p)
    as [[_ E] | [[_ E] | [(_ & _ & E) | (_ & _ & E)]]]; rewrite E;
    destruct (matched_cases l' p')
      as [[_ E'] | [[_ E'] | [(_ & _ & E') | (_ & _ & E')]]]; rewrite E';
    intros H;
    do 4 (destruct i as [| i];
          [simpl in H;
           first [discriminate H | injection H as <-; reflexivity] |]);
    simpl in H; destruct i; discriminate H.
Qed.

Lemma selection_by_position_witness :
  highlighted (click (nth 0 bucket1 fallback)) (suggestions 600 5)
  = [nth 0 bucket4 fallback]
  /\ highlighted (click (nth 3 bucket4 fallback)) (suggestions 50 0) = [].
Proof.
  split.
  - apply (selection_by_position 50 0 600 5 0). reflexivity.
  - apply (selection_by_position 600 5 50 0 3). reflexivity.
Defined.

End Selection.

(* ================================================================== *)
(** * Further properties of the text metrics *)
(* ================================================================== *)

Section SplitMore.

Import JS.

Variable sep : code_unit.

(** Splitting at a separator splits the list of pieces. *)
Lemma split_app (a b : jsstring) :
  split sep (a ++ sep :: b) = split sep a ++ split sep b.
Proof.
  induction a as [| c a IH]; simpl.
  - rewrite Z.eqb_refl. reflexivity.
  - destruct (c =? sep); [rewrite IH; reflexivity |].
    rewrite IH. pose proof (split_not_nil sep a) as N.
    destruct (split sep a) as [| q qs]; [congruence | reflexivity].
Qed.

(** The characters of a piece are characters of the string. *)
Lemma split_In (s piece : jsstring) (c : code_unit) :
  In piece (split sep s) -> In c piece -> In c s.
Proof.
  revert piece. induction s as [| d s IH]; intros piece P C; simpl in P.
  - destruct P as [<- | []]. destruct C.
  - destruct (d =? sep).
    + destruct P as [<- | P]; [destruct C |]. right. exact (IH piece P C).
    + pose proof (split_not_nil sep s) as N.
      destruct (split sep s) as [| q qs]; [congruence |].
      destruct P as [<- | P].
      * destruct C as [<- | C]; [left; reflexivity |].
        right. apply (IH q); [left; reflexivity | exact C].
      * right. apply (IH piece); [right; exact P | exact C].
Qed.

(** Splitting undoes joining when no piece holds the separator. *)
Lemma split_join (pieces : list jsstring) :
  pieces <> [] ->
  Forall (fun piece => ~ In sep piece) pieces ->
  split sep (join sep pieces) = pieces.
Proof.
  induction pieces as [| p ps IH]; intros N F; [congruence |].
  inversion F as [| ? ? Hp Hps]; subst.
  assert (P : forall rest, split sep (p ++ rest)
                           = match split sep rest with
                             | [] => [p]
                             | q :: qs => (p ++ q) :: qs
                             end).
  { clear - Hp. induction p as [| c p IHp]; intros rest; simpl.
    - pose proof (split_not_nil sep rest).
      destruct (split sep rest); [congruence | reflexivity].
    - destruct (Z.eqb_spec c sep) as [-> | _]; [exfalso; apply Hp; left; reflexivity |].
      rewrite IHp by (intros I; apply Hp; right; exact I).
      destruct (split sep rest); reflexivity. }
  destruct ps as [| q qs].
  - simpl. specialize (P []). rewrite app_nil_r in P. rewrite P. simpl.
    rewrite app_nil_r. reflexivity.
  - change (join sep (p :: q :: qs)) with (p ++ sep :: join sep (q :: qs)).
    rewrite split_app.
    specialize (P []). rewrite app_nil_r in P. simpl in P.
    rewrite app_nil_r in P. rewrite P.
    rewrite IH by (congruence || exact Hps). reflexivity.
Qed.

End SplitMore.

Section MetricsMore.

Import Home.

Lemma filter_none {A} (f : A -> bool) (l : list A) :
  (forall x, In x l -> f x = false) -> filter f l = [].
Proof.
  induction l as [| a l IH]; intros H; simpl; [reflexivity |].
  rewrite (H a (or_introl eq_refl)). apply IH.
  intros x I. apply H. right. exact I.
Qed.

Lemma paragraphs_app (a b : JS.jsstring) :
  paragraphs (a ++ JS.LF :: b) = paragraphs a ++ paragraphs b.
Proof. unfold paragraphs. rewrite split_app. apply filter_app. Qed.

(** X8. One newline between two texts adds up their paragraph counts
    (and their lengths, plus one); a newline at the end of a text adds
    no paragraph. *)
Theorem paragraphCount_additive (a b : JS.jsstring) (st : State) :
  paragraphCount (handleContentChange (a ++ JS.LF :: b) st)
  = paragraphCount (handleContentChange a st)
    + paragraphCount (handleContentChange b st)
  /\ contentLength (handleContentChange (a ++ JS.LF :: b) st)
     = contentLength (handleContentChange a st) + 1
       + contentLength (handleContentChange b st)
  /\ paragraphCount (handleContentChange (a ++ [JS.LF]) st)
     = paragraphCount (handleContentChange a st).
Proof.
  destruct (handleContentChange_metrics (a ++ JS.LF :: b) st) as [-> ->].
  destruct (handleContentChange_metrics (a ++ [JS.LF]) st) as [_ ->].
  destruct (handleContentChange_metrics a st) as [-> ->].
  destruct (handleContentChange_metrics b st) as [-> ->].
  rewrite !paragraphs_app. unfold JS.length.
  rewrite !length_app. simpl. repeat split; lia.
Qed.

Lemma paragraphs_half (content : JS.jsstring) :
  (2 * List.length (paragraphs content) <= List.length content + 1)%nat.
Proof.
  rewrite paragraphs_nonBlank.
  pose proof (filter_length_sum _ nonBlank nonBlank_not_nil
                (JS.split JS.LF content)) as B.
  pose proof (split_lengths JS.LF content) as L.
  pose proof (filter_length_le nonBlank (JS.split JS.LF content)) as F.
  unfold JS.jsstring in *. lia.
Qed.

(** X9. Paragraphs need a character each and a newline between
    neighbours: twice the paragraph count is at most the content length
    plus one. *)
Theorem paragraphCount_half (content : JS.jsstring) (st : State) :
  2 * paragraphCount (handleContentChange content st)
  <= contentLength (handleContentChange content st) + 1.
Proof.
  destruct (handleContentChange_metrics content st) as [-> ->].
  pose proof (paragraphs_half content). unfold JS.length. lia.
Qed.

Lemma markEditing_frame (st : State) :
  saveStatus (markEditing st) = Editing
  /\ In {| handle := nextHandle st; due := now st + 900 |} (timers (markEditing st))
  /\ nextHandle (markEditing st) = nextHandle st + 1
  /\ saveTimerRef (markEditing st) = Some (nextHandle st)
  /\ contentLength (markEditing st) = contentLength st
  /\ paragraphCount (markEditing st) = paragraphCount st.
Proof.
  pose proof (cancelPending_frame (setSaveStatus Editing st)) as (F1 & F2 & F3 & F4 & F5).
  unfold markEditing, setTimeout. simpl.
  rewrite F1, F2, F4. simpl.
  repeat split; try reflexivity.
  - apply in_or_app. right. left. reflexivity.
  - unfold cancelPending. simpl.
    destruct (saveTimerRef st) as [h |]; [destruct (h =? 0) |]; reflexivity.
  - unfold cancelPending. simpl.
    destruct (saveTimerRef st) as [h |]; [destruct (h =? 0) |]; reflexivity.
Qed.

(** X10. Content made of white space only (blanks, tabs, newlines, ...)
    has paragraph count 0; unless it is empty it still counts as an
    edit: the status is Editing and a timer due 900 later is pending. *)
Theorem whitespace_only_content (content : JS.jsstring) (st : State)
    (Hblank : forallb JS.isWhiteSpace content = true) :
  paragraphCount (handleContentChange content st) = 0
  /\ (content <> [] ->
      saveStatus (handleContentChange content st) = Editing
      /\ In {| handle := nextHandle st; due := now st + 900 |}
            (timers (handleContentChange content st))).
Proof.
  split.
  - destruct (handleContentChange_metrics content st) as [_ ->].
    rewrite paragraphs_nonBlank.
    rewrite filter_none; [reflexivity |].
    intros piece P.
    unfold nonBlank. rewrite existsb_negb_forallb.
    apply negb_false_iff.
    apply forallb_forall. intros c C.
    rewrite forallb_forall in Hblank. apply Hblank.
    exact (split_In JS.LF content piece c P C).
  - intros N. unfold handleContentChange. cbv zeta.
    assert (L : (0 <? JS.length content) = true).
    { apply Z.ltb_lt. unfold JS.length. destruct content; [congruence | simpl; lia]. }
    rewrite L.
    pose proof (markEditing_frame (storeMetrics content st)) as (S & T & _).
    split; [exact S | exact T].
Qed.

Lemma whitespace_only_content_witness :
  paragraphCount (handleContentChange [32; 9; 10; 32] initial) = 0.
Proof.
  apply (whitespace_only_content [32; 9; 10; 32] initial). reflexivity.
Defined.

End MetricsMore.

(* ================================================================== *)
(** * Further properties of the save-status tracker *)
(* ================================================================== *)

Section TrackerMore.

Import Home HomeTrace.

(** One event keeps the invariant, for some reading of the last call. *)
Lemma step_Inv (e : Event) (st st' : State) (last : option Z) :
  Inv last st -> step e st = Some st' -> exists last', Inv last' st'.
Proof.
  intros I R.
  exists (lastEditFrom (now st) last [e]).
  apply (run_Inv [e] st st' last I). simpl. rewrite R. reflexivity.
Qed.

Lemma step_Settles (e : Event) (st st' : State) (last : option Z) :
  Inv last st -> Settles st -> step e st = Some st' -> Settles st'.
Proof.
  intros I [S D] R.
  destruct e as [dt | h | content |]; simpl in R.
  - destruct (Z.leb_spec 0 dt) as [P | P]; [| discriminate R].
    injection R as <-. split; [exact S |].
    intros tm M. simpl. specialize (D tm M). lia.
  - destruct (find (fun t => handle t =? h) (timers st)) as [tm |]; [| discriminate R].
    destruct (due tm <=? now st); [| discriminate R].
    injection R as <-. split; [reflexivity |].
    intros tm' M. simpl in M. apply filter_In in M. destruct M as [M _].
    exact (D tm' M).
  - destruct (mounted st) eqn:Mo; [| discriminate R].
    injection R as <-. unfold handleContentChange. cbv zeta.
    destruct (0 <? JS.length content);
      [| split; [intros _; exact (S eq_refl) | exact D]].
    pose proof (markEditing_result _ _ (Inv_storeMetrics _ _ content I))
      as (_ & T & _ & _ & C & _).
    split.
    + intros _ E. rewrite T in E. discriminate E.
    + intros tm M. rewrite T in M. destruct M as [<- | []].
      rewrite C. simpl. lia.
  - destruct (mounted st); [| discriminate R].
    injection R as <-.
    destruct (Inv_cleanup _ _ I) as [_ C].
    split; [intros M; discriminate M |].
    intros tm M. rewrite C in M. destruct M.
Qed.

Lemma run_Settles (evs : list Event) :
  forall (st st' : State) (last : option Z),
    Inv last st -> Settles st -> run evs st = Some st' -> Settles st'.
Proof.
  induction evs as [| e evs IH]; intros st st' last I S R; simpl in R.
  - injection R as <-. exact S.
  - destruct (step e st) as [st1 |] eqn:E; [| discriminate R].
    destruct (step_Inv e st st1 last I E) as [last1 I1].
    exact (IH st1 st' last1 I1 (step_Settles e st st1 last I S E) R).
Qed.

Lemma Settles_initial : Settles initial.
Proof. split; [reflexivity | intros tm []]. Qed.

(** X11. While the page is mounted the status is Editing exactly when a
    timer of the page is pending, and Saved exactly when none is: the
    indicator cannot stay on Editing without a timer that will settle
    it, nor show Saved with a timer still pending. *)
Theorem editing_iff_pending (evs : list Event) (st : State)
    (Hrun : run evs initial = Some st) (Hmounted : mounted st = true) :
  (saveStatus st = Editing <-> timers st <> [])
  /\ (saveStatus st = Saved <-> timers st = []).
Proof.
  pose proof (reachable_Inv evs st Hrun) as (_ & T & _).
  pose proof (run_Settles evs initial st None Inv_initial Settles_initial Hrun)
    as [S _].
  destruct T as [E | (tm & E & _ & _ & Ed & _)].
  - specialize (S Hmounted E). rewrite E, S.
    repeat split; intros; congruence.
  - rewrite E, Ed. repeat split; intros; congruence.
Qed.

Lemma editing_iff_pending_witness :
  saveStatus afterThreeEdits = Editing <-> timers afterThreeEdits <> [].
Proof.
  assert (R : run threeEdits initial = Some afterThreeEdits) by reflexivity.
  exact (proj1 (editing_iff_pending threeEdits afterThreeEdits R eq_refl)).
Defined.

(** X12. From any state of a mounted page that shows Editing, the one
    pending timer is due within 900 units, can run at any clock value
    from its due time on, and then sets Saved and leaves no timer: 900
    units of quiet always suffice. *)
Theorem editing_settles (evs : list Event) (st : State)
    (Hrun : run evs initial = Some st) (Hmounted : mounted st = true)
    (Hediting : saveStatus st = Editing) :
  exists tm,
    timers st = [tm]
    /\ due tm <= now st + 900
    /\ forall dt,
         0 <= dt -> due tm <= now st + dt ->
         exists st',
           run [Elapse dt; TimerFires (handle tm)] st = Some st'
           /\ saveStatus st' = Saved /\ timers st' = []
           /\ now st' = now st + dt /\ mounted st' = true.
Proof.
  pose proof (reachable_Inv evs st Hrun) as (_ & T & _).
  pose proof (run_Settles evs initial st None Inv_initial Settles_initial Hrun)
    as [S D].
  destruct T as [E | (tm & E & _)].
  { specialize (S Hmounted E). congruence. }
  exists tm. split; [exact E |].
  split; [apply D; rewrite E; left; reflexivity |].
  intros dt P Q.
  assert (E1 : step (Elapse dt) st = Some (advance dt st)).
  { unfold step. destruct (Z.leb_spec 0 dt); [reflexivity | lia]. }
  assert (E2 : step (TimerFires (handle tm)) (advance dt st)
               = Some (setSaveStatus Saved (clearTimeout (handle tm) (advance dt st)))).
  { unfold step. change (timers (advance dt st)) with (timers st).
    rewrite E. cbn [find]. rewrite Z.eqb_refl.
    change (now (advance dt st)) with (now st + dt).
    destruct (Z.leb_spec (due tm) (now st + dt)); [reflexivity | lia]. }
  exists (setSaveStatus Saved (clearTimeout (handle tm) (advance dt st))).
  split; [unfold run; rewrite E1, E2; reflexivity |].
  split; [reflexivity |].
  split.
  { simpl. rewrite E. simpl. rewrite Z.eqb_refl. reflexivity. }
  split; [reflexivity | exact Hmounted].
Qed.

Lemma editing_settles_witness :
  exists tm,
    timers afterThreeEdits = [tm] /\ due tm <= now afterThreeEdits + 900.
Proof.
  assert (R : run threeEdits initial = Some afterThreeEdits) by reflexivity.
  destruct (editing_settles threeEdits afterThreeEdits R eq_refl eq_refl)
    as (tm & T & D & _).
  exists tm. split; [exact T | exact D].
Defined.

Lemma cancelPending_metrics (st : State) :
  contentLength (cancelPending st) = contentLength st
  /\ paragraphCount (cancelPending st) = paragraphCount st.
Proof.
  unfold cancelPending.
  destruct (saveTimerRef st) as [h |]; [destruct (h =? 0) |]; split; reflexivity.
Qed.

Lemma run_handles (evs : list Event) :
  forall st st' : State,
    run evs st = Some st' ->
    nextHandle st' = nextHandle st + editCount evs
    /\ 0 <= editCount evs
    /\ saveTimerRef st'
       = if editCount evs =? 0 then saveTimerRef st
         else Some (nextHandle st + editCount evs - 1).
Proof.
  induction evs as [| e evs IH]; intros st st' R; simpl in R.
  - injection R as <-. simpl. repeat split; lia.
  - destruct (step e st) as [st1 |] eqn:E; [| discriminate R].
    destruct (IH st1 st' R) as (N & P & F). clear IH R.
    destruct e as [dt | h | content |]; simpl in E; cbn [editCount].
    + destruct (0 <=? dt); [| discriminate E]. injection E as <-.
      repeat split; assumption.
    + destruct (find (fun t => handle t =? h) (timers st)) as [tm |]; [| discriminate E].
      destruct (due tm <=? now st); [| discriminate E]. injection E as <-.
      repeat split; assumption.
    + destruct (mounted st); [| discriminate E]. injection E as <-.
      unfold handleContentChange in N, F. cbv zeta in N, F.
      destruct (0 <? JS.length content).
      * pose proof (markEditing_frame (storeMetrics content st)) as (_ & _ & H1 & H2 & _).
        rewrite H1 in N, F. rewrite H2 in F.
        change (nextHandle (storeMetrics content st)) with (nextHandle st) in N, F.
        split; [lia |]. split; [lia |].
        destruct (Z.eqb_spec (1 + editCount evs) 0) as [Z0 | _]; [lia |].
        rewrite F.
        destruct (Z.eqb_spec (editCount evs) 0) as [Z0 | _]; f_equal; lia.
      * repeat split; assumption.
    + destruct (mounted st); [| discriminate E]. injection E as <-.
      pose proof (cancelPending_frame st) as (_ & _ & F3 & F4 & _).
      unfold cleanup in N, F. cbn [nextHandle saveTimerRef] in N, F.
      rewrite F4 in N, F. rewrite F3 in F.
      repeat split; assumption.
Qed.

Lemma editCount_nonneg (evs : list Event) : 0 <= editCount evs.
Proof.
  induction evs as [| [dt | h | content |] evs IH]; simpl; try lia.
  destruct (0 <? JS.length content); lia.
Qed.

(** No call with non-empty content has been seen exactly when none is
    counted. *)
Lemma lastEditFrom_none (evs : list Event) :
  forall (t : Z) (last : option Z),
    lastEditFrom t last evs = None <-> (last = None /\ editCount evs = 0).
Proof.
  induction evs as [| e evs IH]; intros t last; simpl.
  - split; [intros ->; split; reflexivity | intros [-> _]; reflexivity].
  - pose proof (editCount_nonneg evs) as P.
    destruct e as [dt | h | content |]; try apply IH.
    rewrite IH. destruct (0 <? JS.length content).
    + split; [intros [H _]; discriminate H | intros [_ H]; lia].
    + split; intros [H1 H2]; (split; [exact H1 | lia]).
Qed.

(** X13. Each call with non-empty content takes exactly one timer
    handle and nothing else takes any; the timer ref is null until the
    first such call and from then on always holds the handle taken by
    the latest one: neither a timer that ran nor the cleanup resets it. *)
Theorem one_handle_per_edit (evs : list Event) (st : State)
    (Hrun : run evs initial = Some st) :
  nextHandle st = 1 + editCount evs
  /\ saveTimerRef st = (if editCount evs =? 0 then None else Some (editCount evs))
  /\ (saveTimerRef st = None <-> lastEdit evs = None).
Proof.
  destruct (run_handles evs initial st Hrun) as (N & P & F).
  change (nextHandle initial) with 1 in N, F.
  change (saveTimerRef initial) with (@None Z) in F.
  split; [exact N |].
  split.
  { rewrite F. destruct (editCount evs =? 0); [reflexivity | f_equal; lia]. }
  rewrite F. unfold lastEdit. rewrite lastEditFrom_none.
  destruct (Z.eqb_spec (editCount evs) 0) as [Z0 | NZ].
  - split; intros _; [split; [reflexivity | exact Z0] | reflexivity].
  - split; [intros H; discriminate H | intros [_ Z0]; contradiction].
Qed.

Lemma one_handle_per_edit_witness :
  nextHandle afterThreeEdits = 4 /\ saveTimerRef afterThreeEdits = Some 3.
Proof.
  assert (R : run threeEdits initial = Some afterThreeEdits) by reflexivity.
  destruct (one_handle_per_edit threeEdits afterThreeEdits R) as (N & F & _).
  split; [exact N | exact F].
Defined.

End TrackerMore.

Section MetricsAlongRuns.

Import Home HomeTrace.

Lemma lastContent_fallback (evs : list Event) :
  forall fallback,
    lastContent fallback evs
    = match lastContent None evs with
      | Some content => Some content
      | None => fallback
      end.
Proof.
  induction evs as [| e evs IH]; intros fallback; simpl; [reflexivity |].
  destruct e as [dt | h | content |]; try apply IH.
  rewrite (IH (Some content)).
  destruct (lastContent None evs); reflexivity.
Qed.

Lemma run_metrics (evs : list Event) :
  forall st st' : State,
    run evs st = Some st' ->
    match lastContent None evs with
    | Some content =>
        contentLength st' = JS.length content
        /\ paragraphCount st' = Z.of_nat (List.length (paragraphs content))
    | None =>
        contentLength st' = contentLength st
        /\ paragraphCount st' = paragraphCount st
    end.
Proof.
  induction evs as [| e evs IH]; intros st st' R; simpl in R.
  - injection R as <-. simpl. split; reflexivity.
  - destruct (step e st) as [st1 |] eqn:E; [| discriminate R].
    specialize (IH st1 st' R). clear R.
    destruct e as [dt | h | content |]; simpl in E; cbn [lastContent].
    + destruct (0 <=? dt); [| discriminate E]. injection E as <-. exact IH.
    + destruct (find (fun t => handle t =? h) (timers st)) as [tm |]; [| discriminate E].
      destruct (due tm <=? now st); [| discriminate E]. injection E as <-. exact IH.
    + destruct (mounted st); [| discriminate E]. injection E as <-.
      rewrite lastContent_fallback.
      destruct (lastContent None evs) as [c |]; [exact IH |].
      destruct (handleContentChange_metrics content st) as [L P].
      rewrite L, P in IH. exact IH.
    + destruct (mounted st); [| discriminate E]. injection E as <-.
      destruct (cancelPending_metrics st) as [L P].
      unfold cleanup in IH. cbn [contentLength paragraphCount] in IH.
      rewrite L, P in IH. exact IH.
Qed.

(** X14. In every state of any run the two metrics the panel receives
    are those of the content reported last (0 and 0 before the first
    report), whatever timers ran in between and also after unmounting;
    so they are never negative and twice the paragraph count is at most
    the length plus one. *)
Theorem metrics_of_last_content (evs : list Event) (st : State)
    (Hrun : run evs initial = Some st) :
  match lastContent None evs with
  | Some content =>
      contentLength st = JS.length content
      /\ paragraphCount st = nonBlankLines content
  | None => contentLength st = 0 /\ paragraphCount st = 0
  end
  /\ 0 <= paragraphCount st <= contentLength st
  /\ 2 * paragraphCount st <= contentLength st + 1.
Proof.
  pose proof (run_metrics evs initial st Hrun) as M.
  destruct (lastContent None evs) as [content |].
  - destruct M as [L P].
    pose proof (paragraphs_bound content) as B.
    pose proof (paragraphs_half content) as H.
    rewrite L, P. unfold nonBlankLines. rewrite <- paragraphs_nonBlank.
    unfold JS.length in *. repeat split; lia.
  - destruct M as [L P]. rewrite L, P. simpl. repeat split; lia.
Qed.

Lemma metrics_of_last_content_witness :
  contentLength afterThreeEdits = 1 /\ paragraphCount afterThreeEdits = 1.
Proof.
  assert (R : run threeEdits initial = Some afterThreeEdits) by reflexivity.
  exact (proj1 (metrics_of_last_content threeEdits afterThreeEdits R)).
Defined.

End MetricsAlongRuns.

(* ================================================================== *)
(** * Properties of [cx] *)
(* ================================================================== *)

Section Cx.

Import ClassNames.

Lemma strings_app (a b : list ClassValue) :
  strings (a ++ b) = strings a ++ strings b.
Proof.
  induction a as [| v a IH]; simpl; [reflexivity |].
  destruct v; simpl; rewrite ?IH; reflexivity.
Qed.

Lemma strings_In (classes : list ClassValue) (s : JS.jsstring) :
  In s (strings classes) <-> In (Cstr s) classes.
Proof.
  induction classes as [| v classes IH]; simpl; [tauto |].
  destruct v; simpl; rewrite IH; intuition congruence.
Qed.

(** What [filter(Boolean)] keeps are strings that are not empty. *)
Lemma truthy_strings (classes : list ClassValue) (s : JS.jsstring) :
  In s (strings (filter Boolean classes)) <-> (In (Cstr s) classes /\ s <> []).
Proof.
  rewrite strings_In, filter_In.
  split; intros [I B]; (split; [exact I |]).
  - intros ->. discriminate B.
  - destruct s; [congruence | reflexivity].
Qed.

Lemma join_nil (sep : JS.code_unit) (pieces : list JS.jsstring) :
  (forall piece, In piece pieces -> piece <> []) ->
  JS.join sep pieces = [] -> pieces = [].
Proof.
  intros N J. destruct pieces as [| p ps]; [reflexivity |]. exfalso.
  assert (Np : p <> []) by (apply N; left; reflexivity).
  destruct ps as [| q qs]; simpl in J; [congruence |].
  destruct p; [congruence | discriminate J].
Qed.

Lemma join_app (sep : JS.code_unit) (a b : list JS.jsstring) :
  a <> [] -> b <> [] ->
  JS.join sep (a ++ b) = JS.join sep a ++ sep :: JS.join sep b.
Proof.
  intros Na Nb. induction a as [| p a IH]; [congruence |].
  destruct a as [| q a].
  - simpl. destruct b; [congruence | reflexivity].
  - change (JS.join sep ((p :: q :: a) ++ b))
      with (p ++ sep :: JS.join sep ((q :: a) ++ b)).
    rewrite IH by discriminate.
    change (JS.join sep (p :: q :: a)) with (p ++ sep :: JS.join sep (q :: a)).
    rewrite <- app_assoc. reflexivity.
Qed.

(** X15. When no argument holds a blank and at least one argument is
    truthy, the class tokens of the result (its pieces between blanks)
    are exactly the truthy arguments, in order: nothing is lost or
    merged and no empty token appears.  The result is the empty string
    exactly when no argument is truthy. *)
Theorem cx_tokens (classes : list ClassValue)
    (Hblank : forall s, In (Cstr s) classes -> ~ In SPACE s) :
  (filter Boolean classes <> [] ->
   JS.split SPACE (cx classes) = strings (filter Boolean classes))
  /\ (cx classes = [] <-> filter Boolean classes = [])
  /\ (forall s, In s (strings (filter Boolean classes)) -> s <> []).
Proof.
  assert (NE : forall s, In s (strings (filter Boolean classes)) -> s <> [])
    by (intros s I; apply truthy_strings in I; tauto).
  assert (S0 : strings (filter Boolean classes) = [] -> filter Boolean classes = []).
  { intros E. destruct (filter Boolean classes) as [| v l] eqn:Fl; [reflexivity |].
    assert (B : Boolean v = true).
    { assert (I : In v (filter Boolean classes)) by (rewrite Fl; left; reflexivity).
      apply filter_In in I. tauto. }
    destruct v as [[| c s] | | |]; simpl in B, E; discriminate. }
  split; [| split; [| exact NE]].
  - intros N. unfold cx. apply split_join.
    + intros E. apply N, S0, E.
    + apply Forall_forall. intros s I. apply Hblank.
      apply truthy_strings in I. tauto.
  - unfold cx. split.
    + intros J. apply S0. exact (join_nil SPACE _ NE J).
    + intros E. rewrite E. reflexivity.
Qed.

Lemma cx_tokens_witness :
  JS.split SPACE (cx [Cstr (JS.lit "a"); Cfalse; Cstr []; Cnull; Cstr (JS.lit "b")])
  = [JS.lit "a"; JS.lit "b"].
Proof.
  apply (cx_tokens [Cstr (JS.lit "a"); Cfalse; Cstr []; Cnull; Cstr (JS.lit "b")]).
  - intros s [E | [E | [E | [E | [E | []]]]]]; try discriminate E;
      injection E as <-; simpl; intuition discriminate.
  - discriminate.
Defined.

Lemma cx_pair (u v : JS.jsstring) :
  cx [Cstr u; Cstr v]
  = match u, v with
    | [], _ => v
    | _, [] => u
    | _, _ => u ++ SPACE :: v
    end.
Proof. destruct u, v; reflexivity. Qed.

(** X16. [cx] can be nested: the class string of two argument lists put
    together is the [cx] of their two class strings, because an empty
    result is dropped like any falsy argument. *)
Theorem cx_nested (xs ys : list ClassValue) :
  cx (xs ++ ys) = cx [Cstr (cx xs); Cstr (cx ys)].
Proof.
  rewrite cx_pair. unfold cx. rewrite filter_app, strings_app.
  assert (NA : forall s, In s (strings (filter Boolean xs)) -> s <> [])
    by (intros s I; apply truthy_strings in I; tauto).
  assert (NB : forall s, In s (strings (filter Boolean ys)) -> s <> [])
    by (intros s I; apply truthy_strings in I; tauto).
  destruct (strings (filter Boolean xs)) as [| a la].
  - reflexivity.
  - destruct (strings (filter Boolean ys)) as [| b lb].
    + rewrite app_nil_r. change (JS.join SPACE []) with (@nil JS.code_unit).
      destruct (JS.join SPACE (a :: la)); reflexivity.
    + rewrite join_app by discriminate.
      destruct (JS.join SPACE (a :: la)) eqn:X;
        [apply join_nil in X; [discriminate X | exact NA] |].
      destruct (JS.join SPACE (b :: lb)) eqn:Y;
        [apply join_nil in Y; [discriminate Y | exact NB] |].
      reflexivity.
Qed.

End Cx.

(* ================================================================== *)
(** * Properties of the file handlers *)
(* ================================================================== *)

Section Files.

Import DocEditor.

Lemma forEach_spec (files : list File) :
  forall env : Env,
    issued (forEach files env)
    = issued env ++ map attachment (filter (fun f => negb (isImage f)) files)
    /\ reading (forEach files env) = reading env ++ filter isImage files
    /\ inputValue (forEach files env) = inputValue env.
Proof.
  unfold forEach.
  induction files as [| f files IH]; intros env; simpl.
  - rewrite !app_nil_r. repeat split; reflexivity.
  - destruct (IH (eachFile f env)) as (I & R & V). rewrite I, R, V.
    unfold eachFile, isImage.
    destruct (startsWith (type f) (JS.lit "image/")); simpl;
      rewrite <- ?app_assoc; repeat split; reflexivity.
Qed.

Lemma partition_length {A} (f : A -> bool) (l : list A) :
  (List.length (filter (fun a => negb (f a)) l) + List.length (filter f l)
   = List.length l)%nat.
Proof.
  induction l as [| a l IH]; simpl; [reflexivity |].
  destruct (f a); simpl; lia.
Qed.

(** X17. A drop or a paste handles every file exactly once and in order:
    each file whose type does not start with "image/" gives one
    attachment command carrying its name, size and type, each image file
    gives one started reader and no command, and the input value is not
    touched.  Drop and paste do the same. *)
Theorem onDrop_partition (files : list File) (env : Env) :
  issued (onDrop files env)
  = issued env ++ map attachment (filter (fun f => negb (isImage f)) files)
  /\ reading (onDrop files env) = reading env ++ filter isImage files
  /\ inputValue (onDrop files env) = inputValue env
  /\ (List.length (issued (onDrop files env)) + List.length (reading (onDrop files env))
      = List.length (issued env) + List.length (reading env) + List.length files)%nat
  /\ onPaste files env = onDrop files env.
Proof.
  unfold onDrop, onPaste.
  destruct (forEach_spec files env) as (I & R & V).
  rewrite I, R, V, !length_app, length_map.
  pose proof (partition_length isImage files).
  repeat split; lia.
Qed.

(** X18. Picking files through the input does nothing at all without
    files or without an editor (the input keeps its value); otherwise it
    runs the same commands and starts the same readers as a drop of
    these files, and clears the input when the ref holds it. *)
Theorem handleFileSelect_spec (files : option (list File))
    (editor fileInputRef : bool) (env : Env) :
  ((files = None \/ files = Some [] \/ editor = false) ->
   handleFileSelect files editor fileInputRef env = env)
  /\ (forall fs,
        files = Some fs -> fs <> [] -> editor = true ->
        issued (handleFileSelect files editor fileInputRef env)
        = issued (onDrop fs env)
        /\ reading (handleFileSelect files editor fileInputRef env)
           = reading (onDrop fs env)
        /\ inputValue (handleFileSelect files editor fileInputRef env)
           = if fileInputRef then [] else inputValue env).
Proof.
  split.
  - intros [-> | [-> | ->]]; [reflexivity | reflexivity |].
    destruct files as [fs |]; [| reflexivity]. simpl.
    rewrite orb_true_r. reflexivity.
  - intros fs -> N ->. unfold handleFileSelect, onDrop.
    destruct fs as [| f fs]; [congruence |].
    change (Z.of_nat (List.length (f :: fs)) =? 0) with false.
    cbn [orb negb]. cbv zeta.
    destruct (forEach_spec (f :: fs) env) as (_ & _ & V).
    destruct fileInputRef; cbn [issued reading inputValue]; rewrite ?V;
      repeat split; reflexivity.
Qed.

Section Loads.

Variable dataURL : File -> JS.jsstring.

Lemma loadAll_spec (order : list File) :
  forall env : Env,
    issued (loadAll dataURL order env)
    = issued env ++ map (fun f => SetImage (dataURL f)) order
    /\ reading (loadAll dataURL order env) = reading env.
Proof.
  unfold loadAll.
  induction order as [| f order IH]; intros env; simpl.
  - rewrite app_nil_r. split; reflexivity.
  - destruct (IH (onload dataURL f env)) as (I & R). rewrite I, R. simpl.
    rewrite <- app_assoc. split; reflexivity.
Qed.

(** X19. When the readers started by a drop have loaded, in whatever
    order, the editor has received one command per file: first the
    attachments, in the order of the files, and after them the images,
    in the order in which they loaded.  An image therefore lands after
    every attachment of its batch even when it came first among the
    files. *)
Theorem drop_then_loads (files order : list File) (env : Env)
    (Hloaded : Permutation order (filter isImage files)) :
  issued (loadAll dataURL order (onDrop files env))
  = issued env
    ++ map attachment (filter (fun f => negb (isImage f)) files)
    ++ map (fun f => SetImage (dataURL f)) order
  /\ (List.length (issued (loadAll dataURL order (onDrop files env)))
      = List.length (issued env) + List.length files)%nat.
Proof.
  destruct (loadAll_spec order (onDrop files env)) as (I & _).
  destruct (forEach_spec files env) as (D & _). fold (onDrop files env) in D.
  rewrite I, D, <- app_assoc. split; [reflexivity |].
  rewrite !length_app, !length_map.
  rewrite (Permutation_length Hloaded).
  pose proof (partition_length isImage files). lia.
Qed.

End Loads.

Lemma drop_then_loads_witness :
  let png := {| name := JS.lit "a.png"; size := 10; type := JS.lit "image/png" |} in
  let pdf := {| name := JS.lit "b.pdf"; size := 20; type := JS.lit "application/pdf" |} in
  issued (loadAll (fun f => name f) [png]
            (onDrop [png; pdf] {| issued := []; reading := []; inputValue := [] |}))
  = [attachment pdf; SetImage (JS.lit "a.png")].
Proof.
  cbv zeta.
  refine (proj1 (drop_then_loads (fun f => name f) _ _ _ _)).
  apply Permutation_refl.
Defined.

End Files.

(* ================================================================== *)
(** * The page and the panel together *)
(* ================================================================== *)

Section PageAndPanel.

Import Home SuggestionsPanel.

(** X20. With the metrics the page stores for a content, the panel shows
    four cards exactly when the content has at least 500 code units and
    at least three lines that are not blank, and two cards otherwise. *)
Theorem four_cards_iff (content : JS.jsstring) (st : State) :
  let st' := handleContentChange content st in
  let cards := suggestions (contentLength st') (paragraphCount st') in
  (List.length cards = 4%nat
   <-> (500 <= JS.length content /\ 3 <= nonBlankLines content))
  /\ (List.length cards = 2%nat \/ List.length cards = 4%nat).
Proof.
  cbv zeta.
  destruct (handleContentChange_metrics content st) as [L P].
  rewrite P, L, paragraphs_nonBlank, suggestions_matched.
  fold (nonBlankLines content).
  destruct (matched_cases (JS.length content) (nonBlankLines content))
    as [[C E] | [[C E] | [(C1 & C2 & E) | (C1 & C2 & E)]]];
    rewrite E; simpl; split;
    try (split; [intros H; discriminate H | intros [H1 H2]; lia]);
    try (left; reflexivity); try (right; reflexivity).
  split; [intros _; split; assumption | reflexivity].
Qed.

End PageAndPanel.
